(** * AndroidPluginBuildService: manifest merging and gradle scope extraction

    A shallow embedding of the hand-written algorithms of the class
    [AndroidPluginBuildService]:

    - [getScope] and [getIncludeGradleCompileDependenciesScope], the
      brace-counting scanner over the text of an include.gradle file;
    - [updateManifestContent], [createManifestContent] and [getXml], the
      manifest merger working on the object tree produced by xml2js.

    JavaScript strings are modelled by [string] (one [ascii] per code unit),
    JavaScript numbers that hold indices and counters by [Z], and the objects
    handed around by the merger by a small type of JavaScript values whose
    objects are finite maps from property names to values. *)

From Stdlib Require Import ZArith Lia List Bool.
From Stdlib Require Import Strings.String Strings.Ascii.
From stdpp Require Import gmap strings pretty list fin_maps.

Import ListNotations.
#[local] Set Warnings "-register-all".
Local Open Scope string_scope.
Local Open Scope Z_scope.

(** ** Text primitives *)

Module Text.

(** [content.length] as a JavaScript number. *)
Definition len (s : string) : Z := Z.of_nat (String.length s).

(** [content[i]]: the character at index [i], or [undefined] ([None]) when
    [i] is negative or past the end. *)
Definition charAt (content : string) (i : Z) : option ascii :=
  if i <? 0 then None else String.get (Z.to_nat i) content.

(** The string that [+=] appends for a value read with [content[i]]:
    the character itself, or the text "undefined". *)
Definition toString (c : option ascii) : string :=
  match c with
  | Some a => String a EmptyString
  | None => "undefined"
  end.

(** [currCharacter === bracket] for a one-character string [bracket]. *)
Definition isChar (c : option ascii) (bracket : ascii) : bool :=
  match c with
  | Some a => Ascii.eqb a bracket
  | None => false
  end.

(** [hay.indexOf(needle)], searching from position [pos] of the original
    text, [hay] being what is left of it: the first index at which [needle]
    starts, or -1. *)
Fixpoint indexOf_from (needle hay : string) (pos : Z) : Z :=
  if String.prefix needle hay then pos
  else match hay with
       | EmptyString => -1
       | String _ hay' => indexOf_from needle hay' (pos + 1)
       end.

Definition indexOf (content needle : string) : Z :=
  indexOf_from needle content 0.

(** The part of [s] from index [i] to its end. *)
Definition from (i : nat) (s : string) : string :=
  String.substring i (String.length s - i) s.

End Text.

(** ** getScope *)

Module Scope.
Import Text.

Definition openingBracket : ascii := "{"%char.
Definition closingBracket : ascii := "}"%char.

(** The variables of the scanning loop. *)
Record LoopState : Type := mkLoop {
  i : Z;
  openBrackets : Z;
  foundFirstBracket : bool;
  result : string
}.

Inductive Iteration : Type :=
| Next (st : LoopState)        (* fell through to [i++] *)
| Break (st : LoopState).      (* executed [break] *)

(** One execution of the body of [while (i < content.length)]. *)
Definition loop_body (content : string) (st : LoopState) : Iteration :=
  let currCharacter := charAt content (i st) in
  let foundFirstBracket1 :=
    if isChar currCharacter openingBracket && (openBrackets st =? 0)
    then true else foundFirstBracket st in
  let openBrackets1 :=
    if isChar currCharacter openingBracket
    then openBrackets st + 1 else openBrackets st in
  let openBrackets2 :=
    if isChar currCharacter closingBracket
    then openBrackets1 - 1 else openBrackets1 in
  let result1 := result st ++ toString currCharacter in
  if (openBrackets2 =? 0) && foundFirstBracket1
  then Break (mkLoop (i st) openBrackets2 foundFirstBracket1 result1)
  else Next (mkLoop (i st + 1) openBrackets2 foundFirstBracket1 result1).

(** The [while] loop, run for at most [fuel] iterations; [None] when the
    fuel does not suffice. *)
Fixpoint while_loop (fuel : nat) (content : string) (st : LoopState)
  : option LoopState :=
  if i st <? len content then
    match fuel with
    | O => None
    | S fuel' =>
        match loop_body content st with
        | Break st' => Some st'
        | Next st' => while_loop fuel' content st'
        end
    end
  else Some st.

(** The state on entry to the loop. *)
Definition init (scopeName content : string) : LoopState :=
  mkLoop (indexOf content scopeName) 0 false EmptyString.

(** Iterations that always suffice: the index starts at -1 or later and
    moves up by one on every iteration that does not break. *)
Definition enough (content : string) : nat := S (String.length content).

Definition getScope (scopeName content : string) : string :=
  match while_loop (enough content) content (init scopeName content) with
  | Some st => result st
  | None => EmptyString
  end.

Definition getIncludeGradleCompileDependenciesScope
    (includeGradleFileContent : string) : list string :=
  let indexOfDependenciesScope :=
    indexOf includeGradleFileContent "dependencies" in
  let result : list string := [] in
  if indexOfDependenciesScope =? -1 then result
  else
    let indexOfRepositoriesScope :=
      indexOf includeGradleFileContent "repositories" in
    let result :=
      if indexOfRepositoriesScope >=? 0
      then (result ++ [getScope "repositories" includeGradleFileContent])%list
      else result in
    (result ++ [getScope "dependencies" includeGradleFileContent])%list.

End Scope.

(** ** JavaScript values seen by the manifest merger *)

Module Js.

Inductive ObjectKind : Type := Plain | Array.

(** The values xml2js hands to its callback: [undefined], [null], strings
    and objects.  An object is a finite map from property names to values;
    an array is an object whose own enumerable properties are its indices
    (and whatever named properties are assigned to it later).  Property
    order plays no part in the merger and is not recorded. *)
Inductive JsValue : Type :=
| JsUndefined
| JsNull
| JsString (s : string)
| JsObject (kind : ObjectKind) (props : gmap string JsValue).

(** What an [async] function or a callback-wrapping promise can be rejected
    with: the error object of the parser, or the [TypeError] raised by a
    property access on [undefined] or [null] and by a property assignment
    on a primitive (module code is strict). *)
Inductive Thrown (Err : Type) : Type :=
| ParserError (err : Err)
| TypeError.
Arguments ParserError {Err} err.
Arguments TypeError {Err}.

(** A settled promise. *)
Inductive Promise (Err A : Type) : Type :=
| Resolved (a : A)
| Rejected (reason : Thrown Err).
Arguments Resolved {Err A} a.
Arguments Rejected {Err A} reason.

(** [await p; k] in an [async] function: a rejection ends the function and
    becomes the rejection of its own promise. *)
Definition await {Err A B} (p : Promise Err A) (k : A -> Promise Err B)
  : Promise Err B :=
  match p with
  | Resolved a => k a
  | Rejected reason => Rejected reason
  end.

(** [if (v)]. *)
Definition truthy (v : JsValue) : bool :=
  match v with
  | JsUndefined | JsNull => false
  | JsString s => negb (String.eqb s EmptyString)
  | JsObject _ _ => true
  end.

(** [v[key]] for the property names the merger reads from values that may
    be primitives ("manifest", "$", "package"): a [TypeError] on
    [undefined] and [null], [undefined] on a string, the own property of an
    object or [undefined] when it has none. *)
Definition get {Err} (v : JsValue) (key : string) : Promise Err JsValue :=
  match v with
  | JsUndefined | JsNull => Rejected TypeError
  | JsString _ => Resolved JsUndefined
  | JsObject _ props => Resolved (default JsUndefined (props !! key))
  end.

(** [target[key] = v], giving the target after the assignment. *)
Definition set {Err} (target : JsValue) (key : string) (v : JsValue)
  : Promise Err JsValue :=
  match target with
  | JsObject kind props => Resolved (JsObject kind (<[key := v]> props))
  | JsUndefined | JsNull | JsString _ => Rejected TypeError
  end.

(** The (property, value) pairs visited by [for (const prop in v)] together
    with [v[prop]]: the own properties of an object, the indexed characters
    of a string, nothing for [undefined] and [null]. *)
Definition forIn (v : JsValue) : list (string * JsValue) :=
  match v with
  | JsUndefined | JsNull => []
  | JsString s =>
      imap (fun k c => (pretty k, JsString (String c EmptyString)))
           (list_ascii_of_string s)
  | JsObject _ props => map_to_list props
  end.

End Js.

(** ** The manifest merger *)

Module Manifest.
Import Js.

Section Merger.

(** The two functions of xml2js the service calls.  [parseString] is
    given by the pair (err, result) it passes to its callback; [err] is
    [None] for JavaScript's [null]. *)
Context {Err : Type}.
Variable parseString : string -> option Err * JsValue.
Variable buildObject : JsValue -> string.

Definition getXml (stringContent : string) : Promise Err JsValue :=
  match parseString stringContent with
  | (Some err, _) => Rejected (ParserError err)
  | (None, result) => Resolved result
  end.

(** Lines 52 to 61: the package name and the object whose properties are
    copied. *)
Definition selectPackage (xml : JsValue) (defaultPackageName : string)
  : Promise Err (JsValue * JsValue) :=
  let packageName := JsString defaultPackageName in
  await (get xml "manifest") (fun manifest =>
  if truthy manifest then
    await (get manifest "$") (fun attrs =>
    await (get attrs "package") (fun package =>
    Resolved (if truthy package then package else packageName, manifest)))
  else Resolved (packageName, xml)).

(** Lines 64 to 67: [{ manifest: {} }] filled by the [for ... in] loop. *)
Definition copyProperties (xml : JsValue) : gmap string JsValue :=
  fold_left (fun manifest '(prop, v) => <[prop := v]> manifest)
            (forIn xml) ∅.

(** Lines 52 to 69, the object given to the builder.  The object at
    [newManifest.manifest["$"]] is the one the parser made for
    [xml["$"]]; nothing else refers to it once the function returns, so
    the assignment of line 69 is modelled by replacing that property of
    the new manifest by the updated object. *)
Definition mergeManifest (xml : JsValue) (defaultPackageName : string)
  : Promise Err JsValue :=
  await (selectPackage xml defaultPackageName) (fun '(packageName, xml) =>
  let manifest := copyProperties xml in
  await (get (JsObject Plain manifest) "$") (fun attrs =>
  await (set attrs "package" packageName) (fun attrs' =>
  Resolved
    (JsObject Plain
       {[ "manifest" := JsObject Plain (<["$" := attrs']> manifest) ]})))).

Definition updateManifestContent
    (oldManifestContent defaultPackageName : string)
  : Promise Err string :=
  await (getXml oldManifestContent) (fun xml =>
  await (mergeManifest xml defaultPackageName) (fun newManifest =>
  Resolved (buildObject newManifest))).

End Merger.

(** The package attribute of the top-level manifest node of a tree, when
    that node and its attribute container are objects. *)
Definition packageOf (tree : JsValue) : option JsValue :=
  match tree with
  | JsObject _ top =>
      match top !! "manifest" with
      | Some (JsObject _ manifest) =>
          match manifest !! "$" with
          | Some (JsObject _ attrs) => attrs !! "package"
          | _ => None
          end
      | _ => None
      end
  | _ => None
  end.

(** The direct children and attribute container of the top-level manifest
    node. *)
Definition manifestChild (tree : JsValue) (key : string) : option JsValue :=
  match tree with
  | JsObject _ top =>
      match top !! "manifest" with
      | Some (JsObject _ manifest) => manifest !! key
      | _ => None
      end
  | _ => None
  end.

End Manifest.

(** ** createManifestContent and the static template

    [createManifestContent] does not copy [MANIFEST_ROOT]: the object literal
    [{ manifest: AndroidPluginBuildService.MANIFEST_ROOT }] holds a reference
    to the static object, and line 79 writes through it.  The objects are
    therefore kept in a store of locations. *)

Module Store.
Import Js.

Definition loc : Type := nat.

(** A stored value: a primitive or a reference to an object of the store. *)
Inductive Ref : Type :=
| RUndefined
| RString (s : string)
| RObject (l : loc).

Abbreviation Heap := (gmap loc (gmap string Ref)).

(** The static property and the two objects its initializer allocates when
    the class is defined. *)
Definition MANIFEST_ROOT : Ref := RObject 0%nat.

Definition initial : Heap :=
  {[ 0%nat := {[ "$" := RObject 1%nat ]};
     1%nat := {[ "xmlns:android" :=
                   RString "http://schemas.android.com/apk/res/android" ]} ]}.

Definition get {Err} (h : Heap) (v : Ref) (key : string) : Promise Err Ref :=
  match v with
  | RUndefined => Rejected TypeError
  | RString _ => Resolved RUndefined
  | RObject l =>
      Resolved (default RUndefined (default ∅ (h !! l) !! key))
  end.

Definition set {Err} (h : Heap) (target : Ref) (key : string) (v : Ref)
  : Promise Err Heap :=
  match target with
  | RObject l => Resolved (<[l := <[key := v]> (default ∅ (h !! l))]> h)
  | RUndefined | RString _ => Rejected TypeError
  end.

(** An object literal: a new object at a location not in use. *)
Definition alloc (h : Heap) (props : gmap string Ref) : Ref * Heap :=
  let l := fresh (dom h) in (RObject l, <[l := props]> h).

(** The tree reachable from a stored value, as the builder walks it; the
    depth is bounded by [fuel]. *)
Fixpoint reify (fuel : nat) (h : Heap) (v : Ref) : JsValue :=
  match v with
  | RUndefined => JsUndefined
  | RString s => JsString s
  | RObject l =>
      match fuel with
      | O => JsUndefined
      | S fuel' => JsObject Plain (reify fuel' h <$> default ∅ (h !! l))
      end
  end.

Definition snapshot (h : Heap) (v : Ref) : JsValue := reify (S (size h)) h v.

Section Create.
Context {Err : Type}.
Variable buildObject : JsValue -> string.

(** The function returns the built text or throws; the store after the
    call is the second component. *)
Definition createManifestContent (packageName : string) (h : Heap)
  : Promise Err string * Heap :=
  let '(newManifest, h1) := alloc h {[ "manifest" := MANIFEST_ROOT ]} in
  match get h1 newManifest "manifest" with
  | Rejected reason => (Rejected reason, h1)
  | Resolved manifest =>
      match get h1 manifest "$" with
      | Rejected reason => (Rejected reason, h1)
      | Resolved attrs =>
          match set h1 attrs "package" (RString packageName) with
          | Rejected reason => (Rejected reason, h1)
          | Resolved h2 =>
              (Resolved (buildObject (snapshot h2 newManifest)), h2)
          end
      end
  end.

End Create.

End Store.

(** ** Brace-balanced spans, stated on the text alone *)

Module Span.
Import Text.

Fixpoint count (c : ascii) (s : string) : nat :=
  match s with
  | EmptyString => 0%nat
  | String a s' => ((if Ascii.eqb a c then 1 else 0) + count c s')%nat
  end.

(** Opening braces minus closing braces. *)
Definition depth (s : string) : Z :=
  Z.of_nat (count "{" s) - Z.of_nat (count "}" s).

(** Some opening brace of [s] stands where the depth of the text before it
    is zero. *)
Definition opened (s : string) : bool :=
  existsb (fun k => isChar (String.get k s) "{"
                    && (depth (String.substring 0 k s) =? 0))
          (seq 0 (String.length s)).

(** [s] has been opened and is back at depth zero. *)
Definition balanced (s : string) : bool := opened s && (depth s =? 0).

(** The least [n] such that the first [n + 1] characters of [s] are
    balanced. *)
Definition closing_index (s : string) : option nat :=
  List.find (fun n => balanced (String.substring 0 (S n) s))
            (seq 0 (String.length s)).

(** The same for the text [rest] read after the text [p]. *)
Definition closing_after (p rest : string) : option nat :=
  List.find (fun n => balanced (p ++ String.substring 0 (S n) rest))
            (seq 0 (String.length rest)).

(** [r] is a span of [text]: the characters of [text] from some index on,
    up to some length. *)
Definition is_span (text r : string) : Prop :=
  exists start n, r = String.substring start n text.

(** [needle] occurs in [text]. *)
Definition occurs (needle text : string) : Prop :=
  exists before after, text = before ++ needle ++ after.

(** The text the scanning loop appends when it enters an iteration with
    counter [ob] and flag [found] and [s] is what is left of the content. *)
Fixpoint scan (ob : Z) (found : bool) (s : string) : string :=
  match s with
  | EmptyString => EmptyString
  | String c s' =>
      let found1 := if Ascii.eqb c "{" && (ob =? 0) then true else found in
      let ob1 := if Ascii.eqb c "{" then ob + 1 else ob in
      let ob2 := if Ascii.eqb c "}" then ob1 - 1 else ob1 in
      if (ob2 =? 0) && found1 then String c EmptyString
      else String c (scan ob2 found1 s')
  end.

End Span.

(** ** Sample documents

    The trees xml2js builds for three small documents, and a parser and a
    builder defined on them, for use as concrete inputs. *)

Module Samples.
Import Js.

Definition schema : string := "http://schemas.android.com/apk/res/android".

(** [<manifest xmlns:android=".." package="com.example.plugin">
      <application/></manifest>] *)
Definition manifestText : string :=
  "<manifest xmlns:android='http://schemas.android.com/apk/res/android' package='com.example.plugin'><application/></manifest>".
Definition manifestAttrs : gmap string JsValue :=
  {[ "xmlns:android" := JsString schema;
     "package" := JsString "com.example.plugin" ]}.
Definition manifestNode : gmap string JsValue :=
  {[ "$" := JsObject Plain manifestAttrs;
     "application" := JsObject Array {[ "0" := JsString EmptyString ]} ]}.
Definition manifestTop : gmap string JsValue :=
  {[ "manifest" := JsObject Plain manifestNode ]}.

(** [<manifest xmlns:android=".."><application/></manifest>] *)
Definition bareText : string :=
  "<manifest xmlns:android='http://schemas.android.com/apk/res/android'><application/></manifest>".
Definition bareAttrs : gmap string JsValue :=
  {[ "xmlns:android" := JsString schema ]}.
Definition bareNode : gmap string JsValue :=
  {[ "$" := JsObject Plain bareAttrs;
     "application" := JsObject Array {[ "0" := JsString EmptyString ]} ]}.
Definition bareTop : gmap string JsValue :=
  {[ "manifest" := JsObject Plain bareNode ]}.

(** The same document with [package='org.nativescript.plugin']. *)
Definition mergedText : string :=
  "<manifest xmlns:android='http://schemas.android.com/apk/res/android' package='org.nativescript.plugin'><application/></manifest>".
Definition mergedTop : gmap string JsValue :=
  {[ "manifest" :=
       JsObject Plain
         {[ "$" := JsObject Plain
                     {[ "xmlns:android" := JsString schema;
                        "package" := JsString "org.nativescript.plugin" ]};
            "application" := JsObject Array {[ "0" := JsString EmptyString ]} ]} ]}.

(** [<uses-permission android:name="android.permission.INTERNET"
    package="com.nested"/>]: a document whose root is not [manifest].  The root element is the only
    property of the parsed result. *)
Definition permissionText : string :=
  "<uses-permission android:name='android.permission.INTERNET' package='com.nested'/>".
Definition permissionTop : gmap string JsValue :=
  {[ "uses-permission" :=
       JsObject Plain
         {[ "$" := JsObject Plain
                     {[ "android:name" :=
                          JsString "android.permission.INTERNET";
                        "package" := JsString "com.nested" ]} ]} ]}.

(** A parsed result that carries an attribute container of its own next to
    a child with a package attribute. *)
Definition attributedTop : gmap string JsValue :=
  {[ "$" := JsObject Plain {[ "android:versionCode" := JsString "1" ]};
     "application" :=
       JsObject Array
         {[ "0" := JsObject Plain
                     {[ "$" := JsObject Plain
                                 {[ "package" := JsString "com.nested" ]} ]} ]} ]}.

Definition sampleParser (text : string) : option string * JsValue :=
  if String.eqb text manifestText then (None, JsObject Plain manifestTop)
  else if String.eqb text bareText then (None, JsObject Plain bareTop)
  else if String.eqb text mergedText then (None, JsObject Plain mergedTop)
  else if String.eqb text permissionText
       then (None, JsObject Plain permissionTop)
  else if String.eqb text "attributed" then (None, JsObject Plain attributedTop)
  else (Some "Non-whitespace before first tag.", JsUndefined).

Definition sampleBuilder (tree : JsValue) : string := mergedText.

End Samples.

(** ** Option validation and the include.gradle migration *)

Module Build.
Import Text Scope.

(** How a synchronous method ends: with a value, or with
    [throw new Error(message)]. *)
Inductive Completion (A : Type) : Type :=
| Returned (a : A)
| Threw (message : string).
Arguments Returned {A} a.
Arguments Threw {A} message.

(** The fields of [IBuildOptions] the service reads; [None] is a field that
    is not set. *)
Record IBuildOptions : Type := mkOptions {
  pluginName : option string;
  aarOutputDir : option string;
  tempPluginDirPath : option string;
  platformsAndroidDirPath : option string
}.

(** [!field] for a string field: not set, or the empty string. *)
Definition isFalsy (field : option string) : bool :=
  match field with
  | None => true
  | Some s => String.eqb s EmptyString
  end.

Definition noOptionsMessage : string :=
  "Android plugin cannot be built without passing an 'options' object.".
Definition noPlatformsDirMessage : string :=
  "Android plugin cannot be built without passing the path to the platforms/android dir.".
Definition noTempDirMessage : string :=
  "Android plugin cannot be built without passing the path to a directory where the temporary project should be built.".
Definition noPluginNameInfo : string :=
  "No plugin name provided, defaulting to 'myPlugin'.".
Definition noAarOutputDirInfo : string :=
  "No aarOutputDir provided, defaulting to the build outputs directory of the plugin".

(** [options] is [None] for [undefined] and [null]. *)
Definition validatePlatformsAndroidDirPathOption
    (options : option IBuildOptions) : Completion unit :=
  match options with
  | None => Threw noOptionsMessage
  | Some o =>
      if isFalsy (platformsAndroidDirPath o) then Threw noPlatformsDirMessage
      else Returned tt
  end.

(** [validateOptions], with the lines given to [$logger.info] appended to
    [infos] in the order of the calls. *)
Definition validateOptions (options : option IBuildOptions)
    (infos : list string) : Completion unit * list string :=
  match options with
  | None => (Threw noOptionsMessage, infos)
  | Some o =>
      let infos1 :=
        if isFalsy (pluginName o) then (infos ++ [noPluginNameInfo])%list
        else infos in
      let infos2 :=
        if isFalsy (aarOutputDir o) then (infos1 ++ [noAarOutputDirInfo])%list
        else infos1 in
      if isFalsy (tempPluginDirPath o) then (Threw noTempDirMessage, infos2)
      else (validatePlatformsAndroidDirPathOption options, infos2)
  end.

(** [content.replace(pattern, replacement)] for a string pattern and a
    replacement without [$]: the first occurrence of the pattern is replaced,
    and a text without the pattern is returned as it is. *)
Definition replace (content pattern replacement : string) : string :=
  let k := indexOf content pattern in
  if k =? -1 then content
  else String.substring 0 (Z.to_nat k) content
       ++ replacement
       ++ from (Z.to_nat k + String.length pattern) content.

Section Migration.

(** The file system service and [path.join] are injected; [readFile] gives
    [None] when the call throws, [writeFile] gives the file system after the
    call and whether the call returned ([true]) or threw. *)
Context {FS : Type}.
Variable fsExists : FS -> string -> bool.
Variable readFile : FS -> string -> option string.
Variable writeFile : FS -> string -> string -> FS * bool.
Variable join : string -> string -> string.
Variable INCLUDE_GRADLE_NAME : string.

Definition migrateIncludeGradle (options : option IBuildOptions) (fs : FS)
  : Completion bool * FS :=
  match validatePlatformsAndroidDirPathOption options, options with
  | Threw message, _ => (Threw message, fs)
  | Returned _, None => (Threw noOptionsMessage, fs)
  | Returned _, Some o =>
      let includeGradleFilePath :=
        join (default EmptyString (platformsAndroidDirPath o))
             INCLUDE_GRADLE_NAME in
      if fsExists fs includeGradleFilePath then
        match readFile fs includeGradleFilePath with
        | None =>
            (Threw ("Failed to fs.readFileSync the include.gradle file located at "
                    ++ includeGradleFilePath), fs)
        | Some includeGradleFileContent =>
            let productFlavorsScope :=
              getScope "productFlavors" includeGradleFileContent in
            let newIncludeGradleFileContent :=
              replace includeGradleFileContent productFlavorsScope EmptyString in
            match writeFile fs includeGradleFilePath
                            newIncludeGradleFileContent with
            | (fs', true) => (Returned true, fs')
            | (fs', false) =>
                (Threw ("Failed to write the updated include.gradle in - "
                        ++ includeGradleFilePath), fs')
            end
        end
      else (Returned false, fs)
  end.

End Migration.

(** A file system for examples: a finite map from paths to contents, in
    which every read of an existing file and every write succeed. *)
Definition mapExists (fs : gmap string string) (path : string) : bool :=
  bool_decide (is_Some (fs !! path)).
Definition mapRead (fs : gmap string string) (path : string) : option string :=
  fs !! path.
Definition mapWrite (fs : gmap string string) (path content : string)
  : gmap string string * bool := (<[path := content]> fs, true).
Definition slashJoin (a b : string) : string := a ++ "/" ++ b.

End Build.

(** ** What buildAar appends to build.gradle *)

Module Gradle.
Import Text Scope.



End Gradle.

(** ** Calls of createManifestContent one after the other *)

Module History.
Import Js Store.

(** The store after the calls [createManifestContent(p)] for the [p] of
    [earlier], in order. *)
Definition after {Err : Type} (buildObject : JsValue -> string)
    (earlier : list string) (h : Heap) : Heap :=
  fold_left (fun h p => snd (createManifestContent (Err:=Err) buildObject p h))
            earlier h.

(** The template as the calls leave it: [MANIFEST_ROOT] still refers to an
    object whose only property is the attribute container, and the container
    holds the schema declaration and at most a package besides. *)
Definition templateKept (h : Heap) : Prop :=
  h !! 0%nat = Some {[ "$" := RObject 1%nat ]}
  /\ exists attrs : gmap string Ref,
       h !! 1%nat = Some attrs
       /\ attrs !! "xmlns:android"
          = Some (RString "http://schemas.android.com/apk/res/android")
       /\ forall key : string,
            key <> "xmlns:android" -> key <> "package" -> attrs !! key = None.

End History.

(** ** Vocabulary for the merger's outcomes *)

Module Shape.
Import Js.

(** [v] is an object whose attribute container is an object. *)
Definition hasContainer (v : JsValue) : bool :=
  match v with
  | JsObject _ props =>
      match props !! "$" with
      | Some (JsObject _ _) => true
      | _ => false
      end
  | _ => false
  end.

(** The node whose properties the merger copies: the [manifest] property of
    the parsed object when it is truthy, the parsed object itself when not. *)
Definition copiedNode (kind : ObjectKind) (top : gmap string JsValue)
  : JsValue :=
  if truthy (default JsUndefined (top !! "manifest"))
  then default JsUndefined (top !! "manifest")
  else JsObject kind top.

(** The attribute [key] of the top-level manifest node of a tree. *)
Definition attributeOf (tree : JsValue) (key : string) : option JsValue :=
  match tree with
  | JsObject _ top =>
      match top !! "manifest" with
      | Some (JsObject _ manifest) =>
          match manifest !! "$" with
          | Some (JsObject _ attrs) => attrs !! key
          | _ => None
          end
      | _ => None
      end
  | _ => None
  end.

End Shape.

(** ** The logger: hiding passwords in debug and trace output *)

Module Logger.
Import Text Js.

(** How [getPasswordEncodedArguments] ends: with its value, or with the
    [TypeError] of reading [length] from [undefined]. *)
Inductive Outcome (A : Type) : Type :=
| Done (a : A)
| TypeErrorThrown.
Arguments Done {A} a.
Arguments TypeErrorThrown {A}.

Definition quote : ascii := "034"%char.

(** The characters [.] does not match. *)
Definition lineTerminator (c : ascii) : bool :=
  Ascii.eqb c "010"%char || Ascii.eqb c "013"%char.

(** The class ['&,]. *)
Definition separator (c : ascii) : bool :=
  Ascii.eqb c "'"%char || Ascii.eqb c "&"%char || Ascii.eqb c ","%char.

(** The class [Pp]. *)
Definition isP (c : ascii) : bool :=
  Ascii.eqb c "P"%char || Ascii.eqb c "p"%char.

(** What is left of [s] after the literal [p] it begins with. *)
Fixpoint dropPrefix (p s : string) : option string :=
  match p, s with
  | EmptyString, _ => Some s
  | String a p', String b s' => if Ascii.eqb a b then dropPrefix p' s' else None
  | String _ _, EmptyString => None
  end.

(** The group [(.*?)] followed by something that closes it: the shortest run
    of characters other than line terminators after which a closing
    character stands, or the input ends if [endCloses]. *)
Fixpoint lazyValue (endCloses : bool) (closes : ascii -> bool) (s : string)
  : option string :=
  match s with
  | EmptyString => if endCloses then Some EmptyString else None
  | String c s' =>
      if closes c then Some EmptyString
      else if lineTerminator c then None
      else option_map (String c) (lazyValue endCloses closes s')
  end.

(** A match of [passwordRegex]: by its first alternative, with group 1, or
    by its second, with group 3; the other group is [undefined]. *)
Inductive PasswordMatch : Type :=
| FormField (group1 : string)
| JsonField (group3 : string).

(** The letters assword, a double quote, a colon and a double quote. *)
Definition jsonTail : string :=
  String "a" (String "s" (String "s" (String "w" (String "o" (String "r"
    (String "d" (String quote (String ":" (String quote EmptyString))))))))).

(** [passwordRegex] tried at the start of [s]: first the alternative for
    [[Pp]assword=] followed by a value and a separator or the end, then the
    alternative for a quoted [[Pp]assword], a colon and a quoted value. *)
Definition matchHere (s : string) : option PasswordMatch :=
  let first :=
    match s with
    | String c s' =>
        if isP c then
          match dropPrefix "assword=" s' with
          | Some value => lazyValue true separator value
          | None => None
          end
        else None
    | EmptyString => None
    end in
  match first with
  | Some group1 => Some (FormField group1)
  | None =>
      match s with
      | String q (String c s') =>
          if Ascii.eqb q quote && isP c then
            match dropPrefix jsonTail s' with
            | Some value =>
                option_map JsonField (lazyValue false (Ascii.eqb quote) value)
            | None => None
            end
          else None
      | _ => None
      end
  end.

(** [this.passwordRegex.exec(argument)]: the match at the leftmost position
    that has one. *)
Fixpoint passwordRegex_exec (s : string) : option PasswordMatch :=
  match matchHere s with
  | Some m => Some m
  | None =>
      match s with
      | EmptyString => None
      | String _ s' => passwordRegex_exec s'
      end
  end.

(** [passwordMatch[1] || passwordMatch[3]]; [None] is [undefined]. *)
Definition matchedPassword (m : PasswordMatch) : option string :=
  match m with
  | FormField group1 =>
      if String.eqb group1 EmptyString then None else Some group1
  | JsonField group3 => Some group3
  end.

(** [new Array(n + 1).join('*')]. *)
Fixpoint stars (n : nat) : string :=
  match n with
  | O => EmptyString
  | S k => String "*" (stars k)
  end.

Definition getHiddenPassword (password : option string)
    (originalString : string) : Outcome string :=
  match password with
  | None => TypeErrorThrown
  | Some p =>
      Done (Build.replace originalString p (stars (String.length p)))
  end.

(** The text between the quotes of [requestBodyRegex] (a double quote at
    the start, a lazy group, a double quote at the end), once the opening
    quote has been read. *)
Fixpoint bodyValue (s : string) : option string :=
  match s with
  | EmptyString => None
  | String c s' =>
      if Ascii.eqb c quote && String.eqb s' EmptyString then Some EmptyString
      else if lineTerminator c then None
      else option_map (String c) (bodyValue s')
  end.

(** [this.requestBodyRegex.exec(argument)], given by its group 1. *)
Definition requestBodyRegex_exec (s : string) : option string :=
  match s with
  | String c s' => if Ascii.eqb c quote then bodyValue s' else None
  | EmptyString => None
  end.

Definition encodeRequestPaths : list string :=
  ["/appbuilder/api/itmstransporter/applications?username="].

(** The [_.each] over [encodeRequestPaths]: the value of [encodeBody] after
    it. *)
Fixpoint eachPath (paths : list string) (argument : string)
    (encodeBody : bool) : bool :=
  match paths with
  | [] => encodeBody
  | path :: paths' =>
      if indexOf argument "path" >? -1 then indexOf argument path >? -1
      else eachPath paths' argument encodeBody
  end.

(** The function given to [_.map], with the field [encodeBody] before and
    after. *)
Definition encodeArgument (encodeBody : bool) (argument : JsValue)
  : Outcome JsValue * bool :=
  match argument with
  | JsString s =>
      match passwordRegex_exec s with
      | Some passwordMatch =>
          (match getHiddenPassword (matchedPassword passwordMatch) s with
           | Done hidden => Done (JsString hidden)
           | TypeErrorThrown => TypeErrorThrown
           end, encodeBody)
      | None =>
          match (if encodeBody then requestBodyRegex_exec s else None) with
          | Some body =>
              (match getHiddenPassword (Some body) s with
               | Done hidden => Done (JsString hidden)
               | TypeErrorThrown => TypeErrorThrown
               end, encodeBody)
          | None =>
              (Done (JsString s), eachPath encodeRequestPaths s encodeBody)
          end
      end
  | _ => (Done argument, encodeBody)
  end.

Fixpoint getPasswordEncodedArguments (encodeBody : bool)
    (args : list JsValue) : Outcome (list JsValue) * bool :=
  match args with
  | [] => (Done [], encodeBody)
  | argument :: args' =>
      match encodeArgument encodeBody argument with
      | (Done encoded, encodeBody1) =>
          match getPasswordEncodedArguments encodeBody1 args' with
          | (Done rest, encodeBody2) => (Done (encoded :: rest), encodeBody2)
          | (TypeErrorThrown, encodeBody2) => (TypeErrorThrown, encodeBody2)
          end
      | (TypeErrorThrown, encodeBody1) => (TypeErrorThrown, encodeBody1)
      end
  end.

(** An argument and its encoding have the same kind and, for texts, the
    same length. *)
Definition sameSize (a b : JsValue) : Prop :=
  match a with
  | JsString s =>
      exists s', b = JsString s' /\ String.length s' = String.length s
  | _ => b = a
  end.

End Logger.

(** * Properties *)

(** ** Facts about strings *)

Module TextFacts.
Import Text.

Lemma app_cons (c : ascii) (a b : string) :
  String c a ++ b = String c (a ++ b).
Proof. reflexivity. Qed.

Lemma app_empty_l (a : string) : EmptyString ++ a = a.
Proof. reflexivity. Qed.

Ltac ssimpl := rewrite ?app_cons, ?app_empty_l; simpl.

Lemma length_app (a b : string) :
  String.length (a ++ b) = (String.length a + String.length b)%nat.
Proof. induction a as [|c a IH]; ssimpl; [reflexivity | now rewrite IH]. Qed.

Lemma app_assoc (a b c : string) : (a ++ b) ++ c = a ++ (b ++ c).
Proof. induction a as [|x a IH]; ssimpl; [reflexivity | now rewrite IH]. Qed.

Lemma app_empty_r (a : string) : a ++ EmptyString = a.
Proof. induction a as [|x a IH]; ssimpl; [reflexivity | now rewrite IH]. Qed.

Lemma app_snoc (a : string) (c : ascii) (b : string) :
  (a ++ String c EmptyString) ++ b = a ++ String c b.
Proof. now rewrite app_assoc. Qed.

Lemma get_app_here (pre : string) (c : ascii) (rest : string) :
  String.get (String.length pre) (pre ++ String c rest) = Some c.
Proof. induction pre as [|x pre IH]; ssimpl; [reflexivity | exact IH]. Qed.

Lemma get_app_l (pre rest : string) (k : nat) :
  (k < String.length pre)%nat ->
  String.get k (pre ++ rest) = String.get k pre.
Proof.
  revert k. induction pre as [|x pre IH]; ssimpl; intros k Hk; [lia|].
  destruct k as [|k]; [reflexivity | apply IH; lia].
Qed.

Lemma substring_app_l (pre rest : string) (k : nat) :
  (k <= String.length pre)%nat ->
  String.substring 0 k (pre ++ rest) = String.substring 0 k pre.
Proof.
  revert k. induction pre as [|x pre IH]; ssimpl; intros k Hk.
  - replace k with 0%nat by lia. now destruct rest.
  - destruct k as [|k]; [reflexivity|]. f_equal. apply IH. lia.
Qed.

Lemma substring_0_0 (s : string) : String.substring 0 0 s = EmptyString.
Proof. now destruct s. Qed.

Lemma substring_all (s : string) : String.substring 0 (String.length s) s = s.
Proof. induction s as [|c s IH]; simpl; [reflexivity | now rewrite IH]. Qed.

Lemma from_0 (s : string) : from 0 s = s.
Proof. unfold from. rewrite Nat.sub_0_r. apply substring_all. Qed.

Lemma from_S (c : ascii) (s : string) (k : nat) :
  from (S k) (String c s) = from k s.
Proof. reflexivity. Qed.

Lemma length_substring_0 (s : string) (k : nat) :
  (k <= String.length s)%nat ->
  String.length (String.substring 0 k s) = k.
Proof.
  revert k. induction s as [|c s IH]; simpl; intros k Hk.
  - replace k with 0%nat by lia. reflexivity.
  - destruct k as [|k]; [reflexivity|]. simpl. rewrite IH; lia.
Qed.

Lemma length_from (s : string) (k : nat) :
  (k <= String.length s)%nat ->
  String.length (from k s) = (String.length s - k)%nat.
Proof.
  revert k. induction s as [|c s IH]; intros k Hk.
  - simpl in Hk. replace k with 0%nat by lia. reflexivity.
  - destruct k as [|k].
    + now rewrite from_0.
    + rewrite from_S. simpl in *. apply IH. lia.
Qed.

(** A text is what stands before an index followed by what stands from it
    on. *)
Lemma split_at (s : string) (k : nat) :
  (k <= String.length s)%nat -> s = String.substring 0 k s ++ from k s.
Proof.
  revert k. induction s as [|c s IH]; intros k Hk.
  - simpl in Hk. replace k with 0%nat by lia. reflexivity.
  - destruct k as [|k].
    + now rewrite from_0.
    + rewrite from_S. simpl. rewrite app_cons. f_equal. apply IH.
      simpl in Hk. lia.
Qed.



Lemma prefix_app (needle after : string) :
  String.prefix needle (needle ++ after) = true.
Proof.
  induction needle as [|c needle IH]; ssimpl.
  - now destruct after.
  - destruct (ascii_dec c c); [exact IH | congruence].
Qed.

Lemma prefix_split (needle hay : string) :
  String.prefix needle hay = true -> exists after, hay = needle ++ after.
Proof.
  revert hay. induction needle as [|c needle IH]; intros hay H.
  - now exists hay.
  - destruct hay as [|a hay]; simpl in H; [discriminate|].
    destruct (ascii_dec c a) as [->|]; [|discriminate].
    destruct (IH _ H) as [after ->]. now exists after.
Qed.

Lemma indexOf_from_eq (needle hay : string) (pos : Z) :
  indexOf_from needle hay pos =
  if String.prefix needle hay then pos
  else match hay with
       | EmptyString => -1
       | String _ hay' => indexOf_from needle hay' (pos + 1)
       end.
Proof. destruct hay; reflexivity. Qed.

(** The index of a text is -1 or a position of that text. *)
Lemma indexOf_from_range (needle hay : string) (pos : Z) :
  indexOf_from needle hay pos = -1 \/
  pos <= indexOf_from needle hay pos <= pos + len hay.
Proof.
  revert pos. induction hay as [|c hay IH]; intros pos;
    rewrite indexOf_from_eq.
  - destruct (String.prefix needle EmptyString); [right; unfold len; simpl; lia | now left].
  - destruct (String.prefix needle (String c hay)).
    + right. unfold len. simpl String.length. lia.
    + destruct (IH (pos + 1)) as [H|H]; [now left | right].
      unfold len in *. simpl String.length. lia.
Qed.

Lemma indexOf_range (content needle : string) :
  indexOf content needle = -1 \/ 0 <= indexOf content needle <= len content.
Proof. apply (indexOf_from_range needle content 0). Qed.

(** [indexOf] answers -1 exactly for the texts in which the needle does not
    occur. *)
Lemma indexOf_from_occurs (needle hay : string) (pos : Z) :
  0 <= pos ->
  (indexOf_from needle hay pos <> -1 <-> Span.occurs needle hay).
Proof.
  revert pos. induction hay as [|c hay IH]; intros pos Hpos;
    rewrite indexOf_from_eq.
  - destruct (String.prefix needle EmptyString) eqn:E.
    + split; [intros _ | lia].
      destruct (prefix_split _ _ E) as [after ->]. now exists EmptyString, after.
    + split; [congruence|]. intros (before & after & H).
      destruct before; [|discriminate]. rewrite app_empty_l in H.
      rewrite H, prefix_app in E. discriminate.
  - destruct (String.prefix needle (String c hay)) eqn:E.
    + split; [intros _ | lia].
      destruct (prefix_split _ _ E) as [after ->]. now exists EmptyString, after.
    + rewrite (IH (pos + 1)) by lia. split.
      * intros (before & after & ->). now exists (String c before), after.
      * intros (before & after & H). destruct before as [|b before].
        -- rewrite app_empty_l in H. rewrite H, prefix_app in E.
           discriminate.
        -- injection H as _ ->. now exists before, after.
Qed.

Lemma indexOf_occurs (content needle : string) :
  indexOf content needle <> -1 <-> Span.occurs needle content.
Proof. apply indexOf_from_occurs. lia. Qed.

End TextFacts.

(** ** The scanning loop *)

Module ScopeFacts.
Import Text Scope Span TextFacts.

Lemma while_loop_eq (fuel : nat) (content : string) (st : LoopState) :
  while_loop fuel content st =
  if i st <? len content then
    match fuel with
    | O => None
    | S fuel' =>
        match loop_body content st with
        | Break st' => Some st'
        | Next st' => while_loop fuel' content st'
        end
    end
  else Some st.
Proof. destruct fuel; reflexivity. Qed.

(** An iteration that does not break moves the index up by one. *)
Lemma loop_body_next (content : string) (st st' : LoopState) :
  loop_body content st = Next st' -> i st' = i st + 1.
Proof.
  unfold loop_body. intros H.
  match type of H with (if ?b then _ else _) = _ => destruct b end;
    [discriminate | injection H as <-; reflexivity].
Qed.

(** An iteration that breaks leaves the index where it is. *)
Lemma loop_body_break (content : string) (st st' : LoopState) :
  loop_body content st = Break st' -> i st' = i st.
Proof.
  unfold loop_body. intros H.
  match type of H with (if ?b then _ else _) = _ => destruct b end;
    [injection H as <-; reflexivity | discriminate].
Qed.

(** The loop ends within as many iterations as there are indices left. *)
Lemma while_loop_terminates (fuel : nat) :
  forall (content : string) (st : LoopState),
    len content - i st <= Z.of_nat fuel ->
    exists st', while_loop fuel content st = Some st'.
Proof.
  induction fuel as [|fuel IH]; intros content st Hfuel;
    rewrite while_loop_eq; destruct (Z.ltb_spec (i st) (len content)) as [Hlt|Hge].
  - lia.
  - now exists st.
  - destruct (loop_body content st) as [st1|st1] eqn:Hbody.
    + apply IH. apply loop_body_next in Hbody. lia.
    + now exists st1.
  - now exists st.
Qed.

(** More iterations than needed change nothing. *)
Lemma while_loop_more_fuel (fuel : nat) :
  forall (fuel' : nat) (content : string) (st st' : LoopState),
    (fuel <= fuel')%nat ->
    while_loop fuel content st = Some st' ->
    while_loop fuel' content st = Some st'.
Proof.
  induction fuel as [|fuel IH]; intros fuel' content st st' Hle;
    rewrite (while_loop_eq _ content st), (while_loop_eq fuel' content st);
    destruct (i st <? len content); try discriminate; try (intros H; exact H).
  destruct fuel' as [|fuel']; [lia|].
  destruct (loop_body content st) as [st1|st1]; [|intros H; exact H].
  apply IH. lia.
Qed.

(** The body at an index that holds the character [c]. *)
Lemma loop_body_char (pre : string) (c : ascii) (rest : string)
      (ob : Z) (found : bool) (res : string) :
  loop_body (pre ++ String c rest) (mkLoop (len pre) ob found res) =
  let found1 := if Ascii.eqb c "{" && (ob =? 0) then true else found in
  let ob1 := if Ascii.eqb c "{" then ob + 1 else ob in
  let ob2 := if Ascii.eqb c "}" then ob1 - 1 else ob1 in
  if (ob2 =? 0) && found1
  then Break (mkLoop (len pre) ob2 found1 (res ++ String c EmptyString))
  else Next (mkLoop (len pre + 1) ob2 found1 (res ++ String c EmptyString)).
Proof.
  unfold loop_body. cbn [i openBrackets foundFirstBracket result].
  assert (Hc : charAt (pre ++ String c rest) (len pre) = Some c).
  { unfold charAt, len. destruct (Z.ltb_spec (Z.of_nat (String.length pre)) 0); [lia|].
    rewrite Nat2Z.id. apply get_app_here. }
  rewrite Hc. reflexivity.
Qed.

(** From an index inside the content the loop appends what [scan] gives
    for the rest of the content. *)
Lemma while_loop_scan (rest : string) :
  forall (pre : string) (ob : Z) (found : bool) (res : string) (fuel : nat),
    (String.length rest <= fuel)%nat ->
    exists st',
      while_loop fuel (pre ++ rest) (mkLoop (len pre) ob found res) = Some st'
      /\ result st' = res ++ scan ob found rest.
Proof.
  induction rest as [|c rest IH]; intros pre ob found res fuel Hfuel;
    rewrite while_loop_eq; cbn [i].
  - rewrite app_empty_r, Z.ltb_irrefl. eexists; split; [reflexivity|].
    simpl. now rewrite app_empty_r.
  - assert (Hlt : (len pre <? len (pre ++ String c rest)) = true).
    { apply Z.ltb_lt. unfold len. rewrite length_app. simpl. lia. }
    rewrite Hlt. destruct fuel as [|fuel]; [simpl in Hfuel; lia|].
    rewrite loop_body_char. cbn zeta. simpl scan.
    match goal with |- context [if ?b then Break _ else _] => destruct b end.
    + eexists; split; reflexivity.
    + rewrite <- (app_snoc pre c rest).
      replace (len pre + 1) with (len (pre ++ String c EmptyString)).
      2:{ unfold len. rewrite length_app. simpl. lia. }
      destruct (IH (pre ++ String c EmptyString) 
                   (if Ascii.eqb c "}"
                    then (if Ascii.eqb c "{" then ob + 1 else ob) - 1
                    else if Ascii.eqb c "{" then ob + 1 else ob)
                   (if Ascii.eqb c "{" && (ob =? 0) then true else found)
                   (res ++ String c EmptyString) fuel) as (st' & Hrun & Hres).
      { simpl in Hfuel. lia. }
      exists st'. split; [exact Hrun|]. rewrite Hres. apply app_snoc.
Qed.

(** [getScope] when the name occurs: what [scan] gives from the first
    occurrence on. *)
Lemma getScope_found (scopeName content : string) :
  0 <= indexOf content scopeName ->
  getScope scopeName content =
  scan 0 false (from (Z.to_nat (indexOf content scopeName)) content).
Proof.
  intros Hpos. destruct (indexOf_range content scopeName) as [H|H]; [lia|].
  set (k := Z.to_nat (indexOf content scopeName)).
  assert (Hk : (k <= String.length content)%nat) by (unfold len in H; lia).
  destruct (while_loop_scan (from k content) (String.substring 0 k content)
              0 false EmptyString (enough content)) as (st' & Hrun & Hres).
  { rewrite length_from by exact Hk. unfold enough. lia. }
  rewrite <- split_at in Hrun by exact Hk.
  unfold len in Hrun. rewrite length_substring_0 in Hrun by exact Hk.
  unfold getScope, init.
  replace (indexOf content scopeName) with (Z.of_nat k) by (unfold k; lia).
  rewrite Hrun, Hres. reflexivity.
Qed.

(** [getScope] when the name does not occur: the first iteration reads
    [content[-1]] and appends the text "undefined"; the scan then goes on
    from index 0. *)
Lemma getScope_not_found (scopeName content : string) :
  indexOf content scopeName = -1 ->
  getScope scopeName content = "undefined" ++ scan 0 false content.
Proof.
  intros Hidx. unfold getScope, init, enough. rewrite Hidx.
  rewrite while_loop_eq. cbn [i].
  assert (Hlt : (-1 <? len content) = true) by (apply Z.ltb_lt; unfold len; lia).
  rewrite Hlt. unfold loop_body. cbn.
  destruct (while_loop_scan content EmptyString 0 false "undefined"
              (String.length content)) as (st' & Hrun & Hres); [lia|].
  rewrite app_empty_l in Hrun. change (len EmptyString) with 0 in Hrun.
  change (-1 + 1) with 0. rewrite app_empty_l, Hrun. exact Hres.
Qed.

End ScopeFacts.

(** ** The scan and the balanced prefixes of the text *)

Module SpanFacts.
Import Text Scope Span TextFacts.

Lemma count_app (c : ascii) (a b : string) :
  count c (a ++ b) = (count c a + count c b)%nat.
Proof.
  induction a as [|x a IH]; rewrite ?app_cons, ?app_empty_l; simpl;
    [reflexivity | rewrite IH; lia].
Qed.

Lemma depth_snoc (p : string) (c : ascii) :
  depth (p ++ String c EmptyString) =
  depth p + (if Ascii.eqb c "{" then 1 else 0)
          - (if Ascii.eqb c "}" then 1 else 0).
Proof.
  unfold depth. rewrite !count_app. simpl.
  destruct (Ascii.eqb c "{"), (Ascii.eqb c "}"); lia.
Qed.

Lemma existsb_seq_ext (f g : nat -> bool) (n : nat) :
  (forall k, (k < n)%nat -> f k = g k) ->
  existsb f (seq 0 n) = existsb g (seq 0 n).
Proof.
  intros H. induction n as [|n IH]; [reflexivity|].
  rewrite seq_S, !existsb_app. simpl. rewrite IH, H by (intros; auto with lia).
  reflexivity.
Qed.

Lemma opened_snoc (p : string) (c : ascii) :
  opened (p ++ String c EmptyString) =
  opened p || (Ascii.eqb c "{" && (depth p =? 0)).
Proof.
  unfold opened. rewrite length_app, Nat.add_1_r, seq_S, existsb_app.
  simpl existsb. rewrite orb_false_r, get_app_here.
  rewrite (substring_app_l p _ (String.length p)), substring_all by lia.
  f_equal. apply existsb_seq_ext. intros k Hk.
  rewrite get_app_l, substring_app_l by lia. reflexivity.
Qed.

Lemma find_pointwise (f g : nat -> bool) (l : list nat) :
  (forall n, f n = g n) -> List.find f l = List.find g l.
Proof.
  intros H. induction l as [|x l IH]; simpl; [reflexivity|].
  rewrite H, IH. reflexivity.
Qed.

Lemma find_map_S (f : nat -> bool) (l : list nat) :
  List.find f (List.map S l) =
  option_map S (List.find (fun n => f (S n)) l).
Proof.
  induction l as [|x l IH]; simpl; [reflexivity|].
  destruct (f (S x)); [reflexivity | exact IH].
Qed.

Lemma closing_after_cons (p : string) (c : ascii) (rest : string) :
  closing_after p (String c rest) =
  if balanced (p ++ String c EmptyString) then Some 0%nat
  else option_map S (closing_after (p ++ String c EmptyString) rest).
Proof.
  unfold closing_after. simpl String.length. rewrite <- cons_seq.
  cbn [List.find].
  replace (String.substring 0 1 (String c rest)) with (String c EmptyString)
    by (simpl; now rewrite substring_0_0).
  destruct (balanced (p ++ String c EmptyString)); [reflexivity|].
  rewrite <- seq_shift, find_map_S. f_equal.
  apply find_pointwise. intros n.
  change (String.substring 0 (S (S n)) (String c rest))
    with (String c (String.substring 0 (S n) rest)).
  now rewrite app_snoc.
Qed.

Lemma closing_index_after (s : string) : closing_index s = closing_after EmptyString s.
Proof. reflexivity. Qed.

(** The step of the scan on the counter and the flag is the step of
    [depth] and [opened] on the text read so far. *)
Lemma scan_step (p : string) (c : ascii) :
  let ob := depth p in
  let found := opened p in
  let found1 := if Ascii.eqb c "{" && (ob =? 0) then true else found in
  let ob1 := if Ascii.eqb c "{" then ob + 1 else ob in
  let ob2 := if Ascii.eqb c "}" then ob1 - 1 else ob1 in
  ob2 = depth (p ++ String c EmptyString) /\ found1 = opened (p ++ String c EmptyString).
Proof.
  cbn zeta. rewrite depth_snoc, opened_snoc. split.
  - destruct (Ascii.eqb c "{"), (Ascii.eqb c "}"); lia.
  - destruct (Ascii.eqb c "{" && (depth p =? 0)), (opened p); reflexivity.
Qed.

(** What the scan appends: the rest of the content up to and including the
    character that ends its least balanced prefix, or all of it. *)
Lemma scan_closing (rest : string) :
  forall p : string,
    scan (depth p) (opened p) rest =
    match closing_after p rest with
    | Some n => String.substring 0 (S n) rest
    | None => rest
    end.
Proof.
  induction rest as [|c rest IH]; intros p; [reflexivity|].
  rewrite closing_after_cons. simpl scan.
  destruct (scan_step p c) as [Hob Hfound]. cbn zeta in Hob, Hfound.
  rewrite Hob, Hfound. unfold balanced at 1.
  rewrite (andb_comm (opened _)).
  destruct ((depth (p ++ String c EmptyString) =? 0) && opened (p ++ String c EmptyString));
    [simpl; now rewrite substring_0_0|].
  rewrite IH. destruct (closing_after (p ++ String c EmptyString) rest); reflexivity.
Qed.



End SpanFacts.

(** ** Scope extraction: the properties of the specification *)

Import Text Scope Span TextFacts ScopeFacts SpanFacts.

(** C10. [getScope] terminates for every scope name and every text.  The
    index starts at -1 (name not found) or later; from -1 the first iteration
    goes on to index 0; every iteration either breaks or moves the index up
    by exactly one, and so the loop has ended after at most
    [content.length + 1] iterations: any larger number of iterations gives
    the same final state, whose [result] is what [getScope] returns. *)
Theorem getScope_terminates (scopeName content : string) :
  -1 <= i (init scopeName content) <= len content
  /\ (indexOf content scopeName = -1 ->
      loop_body content (init scopeName content)
      = Next (mkLoop 0 0 false "undefined"))
  /\ (forall st : LoopState,
        (exists st', loop_body content st = Next st' /\ i st' = i st + 1)
        \/ (exists st', loop_body content st = Break st'))
  /\ exists st : LoopState,
       (forall fuel : nat,
          (enough content <= fuel)%nat ->
          while_loop fuel content (init scopeName content) = Some st)
       /\ getScope scopeName content = result st.
Proof.
  assert (Hrange : -1 <= i (init scopeName content) <= len content).
  { cbn [init i]. destruct (indexOf_range content scopeName); unfold len in *; lia. }
  split; [exact Hrange|]. split; [|split].
  - intros Hidx. unfold init. rewrite Hidx. reflexivity.
  - intros st. destruct (loop_body content st) as [st'|st'] eqn:Hbody.
    + left. exists st'. split; [reflexivity | now apply loop_body_next in Hbody].
    + right. now exists st'.
  - destruct (while_loop_terminates (enough content) content
                (init scopeName content)) as [st Hst].
    { unfold enough, len in *. lia. }
    exists st. split.
    + intros fuel Hfuel. now apply (while_loop_more_fuel (enough content)).
    + unfold getScope. now rewrite Hst.
Qed.



(** C1, as the code has it.  [getScope] has no way to answer "no scope": it
    always returns a text.  When the scope name occurs and the text from its
    first occurrence on never gets back to depth zero after an opening brace,
    the loop runs to the end of the text and [getScope] returns everything
    from the first occurrence to the end, which is a span of the text. *)
Theorem getScope_unclosed_returns_rest (scopeName content : string) :
  0 <= indexOf content scopeName ->
  closing_index (from (Z.to_nat (indexOf content scopeName)) content) = None ->
  getScope scopeName content
  = from (Z.to_nat (indexOf content scopeName)) content
  /\ is_span content (getScope scopeName content).
Proof.
  intros Hpos Hclose.
  assert (Hres : getScope scopeName content
                 = from (Z.to_nat (indexOf content scopeName)) content).
  { rewrite getScope_found by exact Hpos.
    pose proof (scan_closing
                  (from (Z.to_nat (indexOf content scopeName)) content) EmptyString)
      as Hscan.
    change (depth EmptyString) with 0 in Hscan. change (opened EmptyString) with false in Hscan.
    now rewrite <- closing_index_after, Hclose in Hscan. }
  split; [exact Hres|]. rewrite Hres. unfold is_span, from. eauto.
Qed.

Lemma getScope_unclosed_returns_rest_witness :
  getScope "dependencies" "apply plugin; dependencies { compile 'x'"
  = "dependencies { compile 'x'"
  /\ is_span "apply plugin; dependencies { compile 'x'"
       (getScope "dependencies" "apply plugin; dependencies { compile 'x'").
Proof.
  apply (getScope_unclosed_returns_rest "dependencies"
           "apply plugin; dependencies { compile 'x'").
  - vm_compute. discriminate.
  - vm_compute. reflexivity.
Defined.

(** C1, as stated, fails: here the scope name occurs, no balanced block
    follows it before the end of the text, and [getScope] returns a partial
    span of the text (its characters 0 to 25) and not absence. *)
Lemma getScope_unclosed_gives_span :
  indexOf "dependencies { compile 'x'" "dependencies" = 0
  /\ closing_index (from 0 "dependencies { compile 'x'") = None
  /\ getScope "dependencies" "dependencies { compile 'x'"
     = String.substring 0 26 "dependencies { compile 'x'"
  /\ getScope "dependencies" "dependencies { compile 'x'"
     = "dependencies { compile 'x'"
  /\ is_span "dependencies { compile 'x'"
       (getScope "dependencies" "dependencies { compile 'x'").
Proof.
  repeat split; try (vm_compute; reflexivity).
  exists 0%nat, 26%nat. vm_compute. reflexivity.
Qed.

(** C6. The helper returns the empty sequence when "dependencies" does not
    occur in the text, whether or not "repositories" does; the dependencies
    scope alone when only "dependencies" occurs; and the repositories scope
    followed by the dependencies scope when both occur. *)
Theorem compile_dependencies_scopes (text : string) :
  (~ occurs "dependencies" text ->
   getIncludeGradleCompileDependenciesScope text = [])
  /\ (occurs "dependencies" text -> ~ occurs "repositories" text ->
      getIncludeGradleCompileDependenciesScope text
      = [getScope "dependencies" text])
  /\ (occurs "dependencies" text -> occurs "repositories" text ->
      getIncludeGradleCompileDependenciesScope text
      = [getScope "repositories" text; getScope "dependencies" text]).
Proof.
  unfold getIncludeGradleCompileDependenciesScope.
  rewrite <- !indexOf_occurs.
  destruct (Z.eqb_spec (indexOf text "dependencies") (-1)) as [Hd|Hd];
    (split; [|split]); try tauto; intros _.
  - intros Hr. assert (Hr' : indexOf text "repositories" = -1) by lia.
    rewrite Hr'. reflexivity.
  - intros Hr. destruct (indexOf_range text "repositories") as [H|H]; [tauto|].
    destruct (Z.geb_spec (indexOf text "repositories") 0); [reflexivity | lia].
Qed.

Lemma compile_dependencies_scopes_witness :
  getIncludeGradleCompileDependenciesScope
    "repositories { jcenter() } android { }" = []
  /\ getIncludeGradleCompileDependenciesScope
       "android { } dependencies { compile 'x' }"
     = ["dependencies { compile 'x' }"]
  /\ getIncludeGradleCompileDependenciesScope
       "repositories { jcenter() } dependencies { compile 'x' }"
     = ["repositories { jcenter() }"; "dependencies { compile 'x' }"].
Proof.
  split; [|split].
  - apply (proj1 (compile_dependencies_scopes _)).
    rewrite <- indexOf_occurs. vm_compute. tauto.
  - apply (proj1 (proj2 (compile_dependencies_scopes
             "android { } dependencies { compile 'x' }"))).
    + exists "android { } ", " { compile 'x' }". reflexivity.
    + rewrite <- indexOf_occurs. vm_compute. tauto.
  - apply (proj2 (proj2 (compile_dependencies_scopes
             "repositories { jcenter() } dependencies { compile 'x' }"))).
    + exists "repositories { jcenter() } ", " { compile 'x' }". reflexivity.
    + exists EmptyString, " { jcenter() } dependencies { compile 'x' }". reflexivity.
Defined.

(** ** The manifest merger *)

Module ManifestFacts.
Import Js Manifest.

(** Copying the properties of an object one by one gives an object with
    the same properties. *)
Lemma fold_insert_lookup (l : list (string * JsValue)) :
  forall (acc : gmap string JsValue) (key : string),
    NoDup l.*1 ->
    fold_left (fun manifest '(prop, v) => <[prop := v]> manifest) l acc !! key
    = match (list_to_map l : gmap string JsValue) !! key with
      | Some v => Some v
      | None => acc !! key
      end.
Proof.
  induction l as [|[k0 v0] l IH]; intros acc key Hnodup; simpl.
  - now rewrite lookup_empty.
  - apply NoDup_cons in Hnodup as [Hfresh Hnodup].
    rewrite IH by exact Hnodup.
    destruct (decide (k0 = key)) as [->|Hne].
    + rewrite !lookup_insert_eq.
      now rewrite (not_elem_of_list_to_map_1 (M:=gmap string) l key Hfresh).
    + rewrite !lookup_insert_ne by exact Hne. reflexivity.
Qed.

Lemma copyProperties_object (kind : ObjectKind) (props : gmap string JsValue) :
  copyProperties (JsObject kind props) = props.
Proof.
  unfold copyProperties. simpl forIn. apply map_eq. intros key.
  rewrite fold_insert_lookup by apply NoDup_fst_map_to_list.
  rewrite list_to_map_to_list, lookup_empty. now destruct (props !! key).
Qed.

Section Facts.
Context {Err : Type}.
Variable parseString : string -> option Err * JsValue.
Variable buildObject : JsValue -> string.

(** A document with a [manifest] node whose attribute container is an
    object. *)
Lemma mergeManifest_manifest (kind km ka : ObjectKind)
      (top m attrs : gmap string JsValue) (d : string) :
  top !! "manifest" = Some (JsObject km m) ->
  m !! "$" = Some (JsObject ka attrs) ->
  mergeManifest (Err:=Err) (JsObject kind top) d =
  Resolved
    (JsObject Plain
       {[ "manifest" :=
            JsObject Plain
              (<["$" := JsObject ka
                   (<["package" :=
                        if truthy (default JsUndefined (attrs !! "package"))
                        then default JsUndefined (attrs !! "package")
                        else JsString d]> attrs)]> m) ]}).
Proof.
  intros Htop Hm. unfold mergeManifest, selectPackage. simpl.
  rewrite Htop. simpl. rewrite Hm. simpl.
  rewrite copyProperties_object, Hm. reflexivity.
Qed.

(** A document whose [manifest] node has no attribute container: the read
    of line 55 is a read on [undefined]. *)
Lemma mergeManifest_manifest_without_container (kind km : ObjectKind)
      (top m : gmap string JsValue) (d : string) :
  top !! "manifest" = Some (JsObject km m) ->
  m !! "$" = None ->
  mergeManifest (Err:=Err) (JsObject kind top) d = Rejected TypeError.
Proof.
  intros Htop Hm. unfold mergeManifest, selectPackage. simpl.
  rewrite Htop. simpl. rewrite Hm. reflexivity.
Qed.

(** A fragment: no truthy [manifest] property at the top. *)
Lemma mergeManifest_fragment (kind : ObjectKind)
      (top : gmap string JsValue) (d : string) :
  truthy (default JsUndefined (top !! "manifest")) = false ->
  mergeManifest (Err:=Err) (JsObject kind top) d =
  await (get (JsObject Plain top) "$") (fun attrs =>
  await (set attrs "package" (JsString d)) (fun attrs' =>
  Resolved
    (JsObject Plain
       {[ "manifest" := JsObject Plain (<["$" := attrs']> top) ]}))).
Proof.
  intros Hfalsy. unfold mergeManifest, selectPackage. simpl.
  rewrite Hfalsy. simpl. rewrite copyProperties_object. reflexivity.
Qed.

(** Whenever the merge succeeds, the tree it builds has a manifest node
    with an attribute container holding a package value, and that value
    is truthy or the default. *)
Lemma mergeManifest_resolved (xml tree : JsValue) (d : string) :
  mergeManifest (Err:=Err) xml d = Resolved tree ->
  exists p, packageOf tree = Some p
            /\ (truthy p = true \/ p = JsString d).
Proof.
  unfold mergeManifest.
  destruct (selectPackage xml d) as [[packageName xml']|] eqn:Hsel;
    [|discriminate].
  assert (Hp : truthy packageName = true \/ packageName = JsString d).
  { unfold selectPackage in Hsel.
    destruct (get xml "manifest") as [manifest|]; [|discriminate].
    simpl in Hsel. destruct (truthy manifest).
    - destruct (get manifest "$") as [attrs|]; [|discriminate].
      simpl in Hsel. destruct (get attrs "package") as [p|]; [|discriminate].
      simpl in Hsel. destruct (truthy p) eqn:Hp; injection Hsel as <- _; auto.
    - injection Hsel as <- _. auto. }
  simpl.
  destruct (default JsUndefined (copyProperties xml' !! "$"))
    as [| |s|ka attrs]; simpl; try discriminate.
  intros [= <-]. exists packageName. split; [|exact Hp].
  unfold packageOf. rewrite lookup_singleton_eq, lookup_insert_eq.
  apply lookup_insert_eq.
Qed.

(** A tree with a package value at its manifest node merges to a tree
    with that value if it is truthy and the default if not. *)
Lemma mergeManifest_packageOf (tree p : JsValue) (d : string) :
  packageOf tree = Some p ->
  exists tree',
    mergeManifest (Err:=Err) tree d = Resolved tree'
    /\ packageOf tree' = Some (if truthy p then p else JsString d).
Proof.
  unfold packageOf. intros H.
  destruct tree as [| | |kind top]; try discriminate.
  destruct (top !! "manifest") as [[| | |km m]|] eqn:Htop; try discriminate.
  destruct (m !! "$") as [[| | |ka attrs]|] eqn:Hm; try discriminate.
  eexists. split; [apply (mergeManifest_manifest _ _ _ _ _ _ _ Htop Hm)|].
  unfold packageOf. rewrite lookup_singleton_eq, lookup_insert_eq.
  rewrite lookup_insert_eq, H. reflexivity.
Qed.

Lemma updateManifestContent_parsed (content d : string) (xml : JsValue) :
  parseString content = (None, xml) ->
  updateManifestContent parseString buildObject content d =
  await (mergeManifest xml d) (fun newManifest =>
  Resolved (buildObject newManifest)).
Proof.
  intros Hparse. unfold updateManifestContent, getXml.
  now rewrite Hparse.
Qed.

End Facts.

End ManifestFacts.

(** ** Manifest merging: the properties of the specification *)

Import Js Manifest ManifestFacts.

(** C8. When the parser reports an error for the existing content,
    [getXml] rejects with that error object and [updateManifestContent]
    rejects with the very same object: nothing is built and nothing is
    resolved. *)
Theorem updateManifestContent_parse_error {Err : Type}
    (parseString : string -> option Err * JsValue)
    (buildObject : JsValue -> string)
    (content d : string) (err : Err) (result : JsValue) :
  parseString content = (Some err, result) ->
  getXml parseString content = Rejected (ParserError err)
  /\ updateManifestContent parseString buildObject content d
     = Rejected (ParserError err)
  /\ forall out : string,
       updateManifestContent parseString buildObject content d <> Resolved out.
Proof.
  intros Hparse.
  assert (Hxml : getXml parseString content = Rejected (ParserError err))
    by (unfold getXml; now rewrite Hparse).
  assert (Hupdate : updateManifestContent parseString buildObject content d
                    = Rejected (ParserError err))
    by (unfold updateManifestContent; now rewrite Hxml).
  split; [exact Hxml|]. split; [exact Hupdate|].
  intros out. rewrite Hupdate. discriminate.
Qed.

Lemma updateManifestContent_parse_error_witness :
  updateManifestContent Samples.sampleParser Samples.sampleBuilder
    "manifest {" "org.nativescript.plugin"
  = Rejected (ParserError "Non-whitespace before first tag.").
Proof.
  apply (updateManifestContent_parse_error Samples.sampleParser
           Samples.sampleBuilder "manifest {" "org.nativescript.plugin"
           "Non-whitespace before first tag." JsUndefined).
  reflexivity.
Defined.

(** C3.  What the code does on a parsed document that has a [manifest]
    node.  When the node carries an attribute container, the merge resolves
    with the text built from a tree whose package attribute is the existing
    one when that is a non-empty string, and the default identifier when the
    existing one is absent from the container or empty; the other properties
    of the node are carried over.  When the node carries no attribute
    container (a manifest element without attributes, whose package is
    absent), or one that is not an object, the read or the write of the
    package raises a [TypeError]: the promise is rejected and no package is
    produced. *)
Theorem updateManifestContent_manifest_package {Err : Type}
    (parseString : string -> option Err * JsValue)
    (buildObject : JsValue -> string)
    (content d : string) (kind km : ObjectKind)
    (top m : gmap string JsValue) :
  parseString content = (None, JsObject kind top) ->
  top !! "manifest" = Some (JsObject km m) ->
  match m !! "$" with
  | Some (JsObject ka attrs) =>
      exists tree : JsValue,
        updateManifestContent parseString buildObject content d
        = Resolved (buildObject tree)
        /\ (forall p : string,
              attrs !! "package" = Some (JsString p) -> p <> EmptyString ->
              packageOf tree = Some (JsString p))
        /\ (attrs !! "package" = None
            \/ attrs !! "package" = Some (JsString EmptyString) ->
            packageOf tree = Some (JsString d))
        /\ (forall key : string,
              key <> "$" -> manifestChild tree key = m !! key)
  | _ =>
      updateManifestContent parseString buildObject content d
      = Rejected TypeError
  end.
Proof.
  intros Hparse Htop.
  rewrite (updateManifestContent_parsed _ _ _ _ _ Hparse).
  destruct (m !! "$") as [[| |s|ka attrs]|] eqn:Hm.
  1,2,3,5: unfold mergeManifest, selectPackage; simpl; rewrite Htop; simpl;
    rewrite Hm; simpl; rewrite ?copyProperties_object, ?Hm; reflexivity.
  rewrite (mergeManifest_manifest _ _ _ _ _ _ _ Htop Hm).
  eexists. split; [reflexivity|]. split; [|split].
  - intros p Hp Hne. unfold packageOf.
    rewrite lookup_singleton_eq, lookup_insert_eq, lookup_insert_eq, Hp.
    simpl. destruct (String.eqb_spec p EmptyString);
      [contradiction | reflexivity].
  - intros Hp. unfold packageOf.
    rewrite lookup_singleton_eq, lookup_insert_eq, lookup_insert_eq.
    destruct Hp as [-> | ->]; reflexivity.
  - intros key Hkey. unfold manifestChild.
    rewrite lookup_singleton_eq. now apply lookup_insert_ne.
Qed.

(** The manifest with a package keeps it; the manifest element without
    attributes, [<manifest><application/></manifest>], is rejected. *)
Lemma updateManifestContent_manifest_package_witness :
  (exists tree : JsValue,
     updateManifestContent Samples.sampleParser Samples.sampleBuilder
       Samples.manifestText "org.nativescript.plugin"
     = Resolved (Samples.sampleBuilder tree)
     /\ packageOf tree = Some (JsString "com.example.plugin"))
  /\ updateManifestContent (Err:=string)
       (fun _ =>
          (None,
           JsObject Plain
             {[ "manifest" :=
                  JsObject Plain
                    {[ "application" :=
                         JsObject Array
                           {[ "0" := JsString EmptyString ]} ]} ]}))
       Samples.sampleBuilder "<manifest><application/></manifest>"
       "org.nativescript.plugin"
     = Rejected TypeError.
Proof.
  split.
  - destruct (updateManifestContent_manifest_package Samples.sampleParser
                Samples.sampleBuilder Samples.manifestText
                "org.nativescript.plugin" Plain Plain
                Samples.manifestTop Samples.manifestNode
                eq_refl eq_refl) as (tree & Hrun & Hkeep & _).
    exists tree. split; [exact Hrun|].
    apply Hkeep; [reflexivity | discriminate].
  - exact (updateManifestContent_manifest_package (Err:=string)
             (fun _ =>
                (None,
                 JsObject Plain
                   {[ "manifest" :=
                        JsObject Plain
                          {[ "application" :=
                               JsObject Array
                                 {[ "0" := JsString EmptyString ]} ]} ]}))
             Samples.sampleBuilder "<manifest><application/></manifest>"
             "org.nativescript.plugin" Plain Plain
             {[ "manifest" :=
                  JsObject Plain
                    {[ "application" :=
                         JsObject Array
                           {[ "0" := JsString EmptyString ]} ]} ]}
             {[ "application" :=
                  JsObject Array {[ "0" := JsString EmptyString ]} ]}
             eq_refl eq_refl).
Defined.

(** C2.  What the code does on a parsed result that has neither a [manifest]
    property nor an attribute container: the properties are copied, the read
    of [newManifest.manifest["$"]] gives [undefined], and the assignment of
    line 69 raises a [TypeError]; the container is not created and nothing is
    built. *)
Theorem updateManifestContent_without_container {Err : Type}
    (parseString : string -> option Err * JsValue)
    (buildObject : JsValue -> string)
    (content d : string) (kind : ObjectKind) (top : gmap string JsValue) :
  parseString content = (None, JsObject kind top) ->
  top !! "manifest" = None ->
  top !! "$" = None ->
  updateManifestContent parseString buildObject content d = Rejected TypeError.
Proof.
  intros Hparse Hmanifest Hattrs.
  rewrite (updateManifestContent_parsed _ _ _ _ _ Hparse).
  rewrite mergeManifest_fragment by now rewrite Hmanifest.
  simpl. rewrite Hattrs. reflexivity.
Qed.

Lemma updateManifestContent_without_container_witness :
  updateManifestContent Samples.sampleParser Samples.sampleBuilder
    Samples.permissionText "org.nativescript.plugin"
  = Rejected TypeError.
Proof.
  apply (updateManifestContent_without_container Samples.sampleParser
           Samples.sampleBuilder Samples.permissionText
           "org.nativescript.plugin" Plain Samples.permissionTop);
    reflexivity.
Defined.

(** C4.  What the code does on a fragment (no [manifest] property at the
    top).  When the parsed result has an attribute container of its own, the
    merge resolves: every property of the parsed result other than the
    container is a direct child of the new manifest node, the container is
    carried over with the package set, and the package is the default
    identifier whatever is nested below.  When it has none (or one that is
    not an object) the merge is rejected with a [TypeError] and no package is
    produced. *)
Theorem updateManifestContent_fragment {Err : Type}
    (parseString : string -> option Err * JsValue)
    (buildObject : JsValue -> string)
    (content d : string) (kind : ObjectKind) (top : gmap string JsValue) :
  parseString content = (None, JsObject kind top) ->
  top !! "manifest" = None ->
  match top !! "$" with
  | Some (JsObject ka attrs) =>
      exists tree : JsValue,
        updateManifestContent parseString buildObject content d
        = Resolved (buildObject tree)
        /\ packageOf tree = Some (JsString d)
        /\ (forall key : string,
              key <> "$" -> manifestChild tree key = top !! key)
        /\ manifestChild tree "$"
           = Some (JsObject ka (<["package" := JsString d]> attrs))
  | _ =>
      updateManifestContent parseString buildObject content d
      = Rejected TypeError
  end.
Proof.
  intros Hparse Hmanifest.
  rewrite (updateManifestContent_parsed _ _ _ _ _ Hparse).
  rewrite mergeManifest_fragment by now rewrite Hmanifest.
  simpl. destruct (top !! "$") as [[| |s|ka attrs]|]; simpl; try reflexivity.
  eexists. split; [reflexivity|]. split; [|split].
  - unfold packageOf. rewrite lookup_singleton_eq, lookup_insert_eq.
    apply lookup_insert_eq.
  - intros key Hkey. unfold manifestChild. rewrite lookup_singleton_eq.
    now apply lookup_insert_ne.
  - unfold manifestChild. rewrite lookup_singleton_eq. apply lookup_insert_eq.
Qed.

Lemma updateManifestContent_fragment_witness :
  updateManifestContent Samples.sampleParser Samples.sampleBuilder
    Samples.permissionText "org.nativescript.plugin"
  = Rejected TypeError
  /\ exists tree : JsValue,
       updateManifestContent Samples.sampleParser Samples.sampleBuilder
         "attributed" "org.nativescript.plugin"
       = Resolved (Samples.sampleBuilder tree)
       /\ packageOf tree = Some (JsString "org.nativescript.plugin").
Proof.
  split.
  - apply (updateManifestContent_fragment Samples.sampleParser
             Samples.sampleBuilder Samples.permissionText
             "org.nativescript.plugin" Plain Samples.permissionTop);
      reflexivity.
  - destruct (updateManifestContent_fragment Samples.sampleParser
                Samples.sampleBuilder "attributed"
                "org.nativescript.plugin" Plain Samples.attributedTop
                eq_refl eq_refl) as (tree & Hrun & Hpackage & _).
    exists tree. split; [exact Hrun | exact Hpackage].
Defined.

(** C9.  Merging again the text built by a merge, with the same default,
    gives the same package: if the first merge resolves with the text built
    from [tree], and the parser reads that text back as a tree with the same
    package attribute at its manifest node, then the second merge resolves
    with a text built from a tree whose package attribute is again that of
    [tree]. *)
Theorem updateManifestContent_remerge {Err : Type}
    (parseString : string -> option Err * JsValue)
    (buildObject : JsValue -> string)
    (content d : string) (xml tree reparsed : JsValue) :
  parseString content = (None, xml) ->
  mergeManifest (Err:=Err) xml d = Resolved tree ->
  parseString (buildObject tree) = (None, reparsed) ->
  packageOf reparsed = packageOf tree ->
  updateManifestContent parseString buildObject content d
  = Resolved (buildObject tree)
  /\ exists tree' : JsValue,
       updateManifestContent parseString buildObject (buildObject tree) d
       = Resolved (buildObject tree')
       /\ packageOf tree' = packageOf tree
       /\ is_Some (packageOf tree).
Proof.
  intros Hparse Hmerge Hreparse Hsame. split.
  - rewrite (updateManifestContent_parsed _ _ _ _ _ Hparse), Hmerge.
    reflexivity.
  - destruct (mergeManifest_resolved _ _ _ Hmerge) as (p & Hp & Hvalue).
    rewrite Hp in Hsame.
    destruct (mergeManifest_packageOf (Err:=Err) _ _ d Hsame)
      as (tree' & Hmerge' & Hp').
    exists tree'. split; [|split].
    + rewrite (updateManifestContent_parsed _ _ _ _ _ Hreparse), Hmerge'.
      reflexivity.
    + rewrite Hp, Hp'. destruct Hvalue as [-> | ->]; [reflexivity|].
      now destruct (truthy (JsString d)).
    + rewrite Hp. eauto.
Qed.

Lemma updateManifestContent_remerge_witness :
  updateManifestContent Samples.sampleParser Samples.sampleBuilder
    Samples.bareText "org.nativescript.plugin"
  = Resolved Samples.mergedText
  /\ exists tree' : JsValue,
       updateManifestContent Samples.sampleParser Samples.sampleBuilder
         Samples.mergedText "org.nativescript.plugin"
       = Resolved (Samples.sampleBuilder tree')
       /\ packageOf tree' = Some (JsString "org.nativescript.plugin").
Proof.
  destruct (updateManifestContent_remerge Samples.sampleParser
              Samples.sampleBuilder Samples.bareText
              "org.nativescript.plugin"
              (JsObject Plain Samples.bareTop)
              (JsObject Plain Samples.mergedTop)
              (JsObject Plain Samples.mergedTop)
              eq_refl ltac:(vm_compute; reflexivity) eq_refl eq_refl)
    as (Hfirst & tree' & Hsecond & Hpackage & _).
  split; [exact Hfirst|]. exists tree'. split; [exact Hsecond|].
  rewrite Hpackage. vm_compute. reflexivity.
Defined.

(** ** createManifestContent and MANIFEST_ROOT *)

(** C5.  What the code does to its static template.  A call of
    [createManifestContent] in the store as the class definition leaves it
    returns the text built from a manifest with the schema declaration and
    the given package, and it leaves the object [MANIFEST_ROOT] refers to
    changed: its attribute container now holds the package as well, so the
    template after the call is not the template before it. *)
Theorem createManifestContent_writes_template {Err : Type}
    (buildObject : JsValue -> string) (packageName : string) :
  fst (Store.createManifestContent (Err:=Err) buildObject packageName
         Store.initial)
  = Resolved
      (buildObject
         (JsObject Plain
            {[ "manifest" :=
                 JsObject Plain
                   {[ "$" := JsObject Plain
                               {[ "xmlns:android" := JsString Samples.schema;
                                  "package" := JsString packageName ]} ]} ]}))
  /\ Store.snapshot Store.initial Store.MANIFEST_ROOT
     = JsObject Plain
         {[ "$" := JsObject Plain
                     {[ "xmlns:android" := JsString Samples.schema ]} ]}
  /\ Store.snapshot
       (snd (Store.createManifestContent (Err:=Err) buildObject packageName
               Store.initial))
       Store.MANIFEST_ROOT
     = JsObject Plain
         {[ "$" := JsObject Plain
                     {[ "xmlns:android" := JsString Samples.schema;
                        "package" := JsString packageName ]} ]}
  /\ Store.snapshot
       (snd (Store.createManifestContent (Err:=Err) buildObject packageName
               Store.initial))
       Store.MANIFEST_ROOT
     <> Store.snapshot Store.initial Store.MANIFEST_ROOT.
Proof.
  assert (Hafter :
    Store.snapshot
      (snd (Store.createManifestContent (Err:=Err) buildObject packageName
              Store.initial))
      Store.MANIFEST_ROOT
    = JsObject Plain
        {[ "$" := JsObject Plain
                    {[ "xmlns:android" := JsString Samples.schema;
                       "package" := JsString packageName ]} ]})
    by (vm_compute; reflexivity).
  split; [vm_compute; reflexivity|].
  split; [vm_compute; reflexivity|].
  split; [exact Hafter|].
  rewrite Hafter. intros Heq.
  apply (f_equal (fun template =>
                    packageOf (JsObject Plain {[ "manifest" := template ]})))
    in Heq.
  vm_compute in Heq. discriminate.
Qed.

(** A later call overwrites the package left behind by an earlier one: the
    text returned is built from the package of the call at hand. *)
Lemma createManifestContent_again {Err : Type}
    (buildObject : JsValue -> string) (earlier packageName : string) :
  fst (Store.createManifestContent (Err:=Err) buildObject packageName
         (snd (Store.createManifestContent (Err:=Err) buildObject earlier
                 Store.initial)))
  = Resolved
      (buildObject
         (JsObject Plain
            {[ "manifest" :=
                 JsObject Plain
                   {[ "$" := JsObject Plain
                               {[ "xmlns:android" := JsString Samples.schema;
                                  "package" := JsString packageName ]} ]} ]})).
Proof. vm_compute. reflexivity. Qed.

(** * Further properties of the code *)

(** ** The result of a merge *)

Module MergeFacts.
Import Js Manifest ManifestFacts Shape.

(** The tree of a merge that resolves. *)
Lemma mergeManifest_shape {Err : Type} (xml tree : JsValue) (d : string) :
  mergeManifest (Err:=Err) xml d = Resolved tree ->
  exists (m : gmap string JsValue) (ka : ObjectKind)
         (attrs : gmap string JsValue) (p : JsValue),
    tree = JsObject Plain
             {[ "manifest" :=
                  JsObject Plain
                    (<["$" := JsObject ka (<["package" := p]> attrs)]> m) ]}
    /\ (truthy p = true \/ p = JsString d).
Proof.
  unfold mergeManifest.
  destruct (selectPackage xml d) as [[packageName xml']|] eqn:Hsel;
    [|discriminate].
  assert (Hp : truthy packageName = true \/ packageName = JsString d).
  { unfold selectPackage in Hsel.
    destruct (get xml "manifest") as [manifest|]; [|discriminate].
    simpl in Hsel. destruct (truthy manifest).
    - destruct (get manifest "$") as [attrs|]; [|discriminate].
      simpl in Hsel. destruct (get attrs "package") as [p|]; [|discriminate].
      simpl in Hsel. destruct (truthy p) eqn:Hp; injection Hsel as <- _; auto.
    - injection Hsel as <- _. auto. }
  simpl.
  destruct (default JsUndefined (copyProperties xml' !! "$"))
    as [| |s|ka attrs]; simpl; try discriminate.
  intros [= <-]. exists (copyProperties xml'), ka, attrs, packageName.
  split; [reflexivity | exact Hp].
Qed.

(** Merging a tree of that shape again changes nothing. *)
Lemma mergeManifest_fixed {Err : Type} (m : gmap string JsValue)
      (ka : ObjectKind) (attrs : gmap string JsValue) (p : JsValue)
      (d : string) :
  truthy p = true \/ p = JsString d ->
  mergeManifest (Err:=Err)
    (JsObject Plain
       {[ "manifest" :=
            JsObject Plain
              (<["$" := JsObject ka (<["package" := p]> attrs)]> m) ]}) d
  = Resolved
      (JsObject Plain
         {[ "manifest" :=
              JsObject Plain
                (<["$" := JsObject ka (<["package" := p]> attrs)]> m) ]}).
Proof.
  intros Hp.
  rewrite (mergeManifest_manifest Plain Plain ka _ _ (<["package" := p]> attrs))
    by (try apply lookup_singleton_eq; apply lookup_insert_eq).
  rewrite lookup_insert_eq. simpl.
  assert (Hsame : (if truthy p then p else JsString d) = p).
  { destruct Hp as [-> | ->]; [reflexivity|]. now destruct (truthy _). }
  rewrite Hsame, !insert_insert_eq. reflexivity.
Qed.

End MergeFacts.

Import Shape MergeFacts.

(** X1.  Merging is idempotent on trees: when the merge of a parsed result
    resolves with a tree, merging that tree with the same default resolves
    with the very same tree. *)
Theorem mergeManifest_idempotent {Err : Type} (xml tree : JsValue) (d : string) :
  mergeManifest (Err:=Err) xml d = Resolved tree ->
  mergeManifest (Err:=Err) tree d = Resolved tree.
Proof.
  intros Hmerge.
  destruct (mergeManifest_shape _ _ _ Hmerge) as (m & ka & attrs & p & -> & Hp).
  now apply mergeManifest_fixed.
Qed.

Lemma mergeManifest_idempotent_witness :
  mergeManifest (Err:=string) (JsObject Plain Samples.mergedTop)
    "org.nativescript.plugin"
  = Resolved (JsObject Plain Samples.mergedTop).
Proof.
  apply (mergeManifest_idempotent (JsObject Plain Samples.bareTop)).
  vm_compute. reflexivity.
Defined.

(** X2.  Whenever [updateManifestContent] resolves, the text was built from
    a tree whose only property is [manifest], an object whose attribute
    container is an object that holds a package; the package is truthy or is
    the default identifier. *)
Theorem updateManifestContent_resolved_shape {Err : Type}
    (parseString : string -> option Err * JsValue)
    (buildObject : JsValue -> string) (content d out : string) :
  updateManifestContent parseString buildObject content d = Resolved out ->
  exists (m : gmap string JsValue) (ka : ObjectKind)
         (attrs : gmap string JsValue) (p : JsValue),
    out = buildObject (JsObject Plain {[ "manifest" := JsObject Plain m ]})
    /\ m !! "$" = Some (JsObject ka attrs)
    /\ attrs !! "package" = Some p
    /\ (truthy p = true \/ p = JsString d).
Proof.
  unfold updateManifestContent.
  destruct (getXml parseString content) as [xml|]; [|discriminate]. simpl.
  destruct (mergeManifest xml d) as [tree|] eqn:Hmerge; [|discriminate].
  simpl. intros [= <-].
  destruct (mergeManifest_shape _ _ _ Hmerge) as (m & ka & attrs & p & -> & Hp).
  exists (<["$" := JsObject ka (<["package" := p]> attrs)]> m), ka,
         (<["package" := p]> attrs), p.
  split; [reflexivity|]. split; [apply lookup_insert_eq|].
  split; [apply lookup_insert_eq | exact Hp].
Qed.

Lemma updateManifestContent_resolved_shape_witness :
  exists (m : gmap string JsValue) (ka : ObjectKind)
         (attrs : gmap string JsValue) (p : JsValue),
    Samples.mergedText
    = Samples.sampleBuilder
        (JsObject Plain {[ "manifest" := JsObject Plain m ]})
    /\ m !! "$" = Some (JsObject ka attrs)
    /\ attrs !! "package" = Some p
    /\ (truthy p = true \/ p = JsString "org.nativescript.plugin").
Proof.
  apply (updateManifestContent_resolved_shape Samples.sampleParser
           Samples.sampleBuilder Samples.bareText "org.nativescript.plugin"
           Samples.mergedText).
  vm_compute. reflexivity.
Defined.

(** X3.  A parsed document whose [manifest] node already has a truthy
    package goes to the builder with that node as it was parsed: nothing is
    added, nothing is changed, and the default identifier plays no part. *)
Theorem updateManifestContent_keeps_manifest {Err : Type}
    (parseString : string -> option Err * JsValue)
    (buildObject : JsValue -> string)
    (content d : string) (kind km ka : ObjectKind)
    (top m attrs : gmap string JsValue) (p : JsValue) :
  parseString content = (None, JsObject kind top) ->
  top !! "manifest" = Some (JsObject km m) ->
  m !! "$" = Some (JsObject ka attrs) ->
  attrs !! "package" = Some p ->
  truthy p = true ->
  updateManifestContent parseString buildObject content d
  = Resolved (buildObject
                (JsObject Plain {[ "manifest" := JsObject Plain m ]})).
Proof.
  intros Hparse Htop Hm Hattrs Hp.
  rewrite (updateManifestContent_parsed _ _ _ _ _ Hparse).
  rewrite (mergeManifest_manifest _ _ _ _ _ _ _ Htop Hm).
  rewrite Hattrs. simpl. rewrite Hp.
  rewrite (insert_id attrs "package" p Hattrs).
  rewrite (insert_id m "$" _ Hm). reflexivity.
Qed.

Lemma updateManifestContent_keeps_manifest_witness :
  updateManifestContent Samples.sampleParser Samples.sampleBuilder
    Samples.manifestText "org.nativescript.plugin"
  = Resolved (Samples.sampleBuilder
                (JsObject Plain
                   {[ "manifest" := JsObject Plain Samples.manifestNode ]})).
Proof.
  apply (updateManifestContent_keeps_manifest Samples.sampleParser
           Samples.sampleBuilder Samples.manifestText
           "org.nativescript.plugin" Plain Plain Plain Samples.manifestTop
           Samples.manifestNode Samples.manifestAttrs
           (JsString "com.example.plugin")); reflexivity.
Defined.

(** X4.  For a parsed object the merge resolves exactly when the node whose
    properties are copied (the [manifest] property when it is truthy, the
    parsed object when not) is an object with an object for attribute
    container; in every other case the promise is rejected with a
    [TypeError]. *)
Theorem updateManifestContent_resolves_iff {Err : Type}
    (parseString : string -> option Err * JsValue)
    (buildObject : JsValue -> string)
    (content d : string) (kind : ObjectKind) (top : gmap string JsValue) :
  parseString content = (None, JsObject kind top) ->
  (hasContainer (copiedNode kind top) = true ->
   exists tree : JsValue,
     updateManifestContent parseString buildObject content d
     = Resolved (buildObject tree))
  /\ (hasContainer (copiedNode kind top) = false ->
      updateManifestContent parseString buildObject content d
      = Rejected TypeError).
Proof.
  intros Hparse. rewrite (updateManifestContent_parsed _ _ _ _ _ Hparse).
  unfold copiedNode, hasContainer, mergeManifest, selectPackage. simpl.
  destruct (top !! "manifest") as [[| |s|km m]|] eqn:Htop; simpl;
    rewrite ?copyProperties_object.
  1,2,5: destruct (top !! "$") as [[| |s'|ka attrs]|]; simpl;
    split; intros H; try discriminate; try reflexivity; eauto.
  - destruct (String.eqb s EmptyString); simpl; rewrite ?copyProperties_object.
    + destruct (top !! "$") as [[| |s'|ka attrs]|]; simpl;
        split; intros H; try discriminate; try reflexivity; eauto.
    + split; intros H; [discriminate | reflexivity].
  - destruct (m !! "$") as [[| |s'|ka attrs]|] eqn:Hm; simpl;
      rewrite ?copyProperties_object, ?Hm; simpl;
      split; intros H; try discriminate; try reflexivity; eauto.
Qed.

Lemma updateManifestContent_resolves_iff_witness :
  (exists tree : JsValue,
     updateManifestContent Samples.sampleParser Samples.sampleBuilder
       Samples.bareText "org.nativescript.plugin"
     = Resolved (Samples.sampleBuilder tree))
  /\ updateManifestContent Samples.sampleParser Samples.sampleBuilder
       Samples.permissionText "org.nativescript.plugin"
     = Rejected TypeError.
Proof.
  split.
  - apply (proj1 (updateManifestContent_resolves_iff Samples.sampleParser
                    Samples.sampleBuilder Samples.bareText
                    "org.nativescript.plugin" Plain Samples.bareTop eq_refl)).
    reflexivity.
  - apply (proj2 (updateManifestContent_resolves_iff Samples.sampleParser
                    Samples.sampleBuilder Samples.permissionText
                    "org.nativescript.plugin" Plain Samples.permissionTop
                    eq_refl)).
    reflexivity.
Defined.

(** X5.  The attributes of the [manifest] node other than the package are
    carried over as they are, whether the package is kept or set to the
    default. *)
Theorem updateManifestContent_keeps_attributes {Err : Type}
    (parseString : string -> option Err * JsValue)
    (buildObject : JsValue -> string)
    (content d : string) (kind km ka : ObjectKind)
    (top m attrs : gmap string JsValue) :
  parseString content = (None, JsObject kind top) ->
  top !! "manifest" = Some (JsObject km m) ->
  m !! "$" = Some (JsObject ka attrs) ->
  exists tree : JsValue,
    updateManifestContent parseString buildObject content d
    = Resolved (buildObject tree)
    /\ (forall key : string,
          key <> "package" -> attributeOf tree key = attrs !! key)
    /\ is_Some (attributeOf tree "package").
Proof.
  intros Hparse Htop Hm. eexists. split; [|split].
  - rewrite (updateManifestContent_parsed _ _ _ _ _ Hparse).
    rewrite (mergeManifest_manifest _ _ _ _ _ _ _ Htop Hm). reflexivity.
  - intros key Hkey. unfold attributeOf.
    rewrite lookup_singleton_eq, lookup_insert_eq.
    apply lookup_insert_ne. congruence.
  - unfold attributeOf.
    rewrite lookup_singleton_eq, lookup_insert_eq, lookup_insert_eq. eauto.
Qed.

Lemma updateManifestContent_keeps_attributes_witness :
  exists tree : JsValue,
    updateManifestContent Samples.sampleParser Samples.sampleBuilder
      Samples.bareText "org.nativescript.plugin"
    = Resolved (Samples.sampleBuilder tree)
    /\ attributeOf tree "xmlns:android" = Some (JsString Samples.schema).
Proof.
  destruct (updateManifestContent_keeps_attributes Samples.sampleParser
              Samples.sampleBuilder Samples.bareText
              "org.nativescript.plugin" Plain Plain Plain Samples.bareTop
              Samples.bareNode Samples.bareAttrs eq_refl eq_refl eq_refl)
    as (tree & Hrun & Hkeep & _).
  exists tree. split; [exact Hrun|].
  rewrite Hkeep by discriminate. reflexivity.
Defined.

(** ** More on the scanning loop *)

Module ScanFacts.
Import Text Scope Span TextFacts ScopeFacts SpanFacts.

(** Scanning what a scan gave gives it again. *)
Lemma scan_idem (s : string) :
  forall (ob : Z) (found : bool),
    scan ob found (scan ob found s) = scan ob found s.
Proof.
  induction s as [|c s IH]; intros ob found; [reflexivity|].
  simpl.
  destruct (((if Ascii.eqb c "}"
              then (if Ascii.eqb c "{" then ob + 1 else ob) - 1
              else if Ascii.eqb c "{" then ob + 1 else ob) =? 0)
            && (if Ascii.eqb c "{" && (ob =? 0) then true else found)) eqn:Hstop;
    simpl; rewrite Hstop; [reflexivity|]. now rewrite IH.
Qed.

(** What a scan gives is the beginning of what it was given. *)
Lemma scan_prefix (s : string) :
  forall (ob : Z) (found : bool),
    exists rest, s = scan ob found s ++ rest.
Proof.
  induction s as [|c s IH]; intros ob found; [now exists EmptyString|].
  simpl.
  match goal with |- context [if ?b then String c EmptyString else _] =>
    destruct b end.
  - now exists s.
  - destruct (IH (if Ascii.eqb c "}"
                  then (if Ascii.eqb c "{" then ob + 1 else ob) - 1
                  else if Ascii.eqb c "{" then ob + 1 else ob)
                 (if Ascii.eqb c "{" && (ob =? 0) then true else found))
      as [rest Hrest].
    exists rest. rewrite app_cons. now rewrite <- Hrest.
Qed.

(** Before any opening brace, a text without braces is read through. *)
Lemma scan_plain_app (a : string) :
  forall (ob : Z) (s : string),
    count "{" a = 0%nat -> count "}" a = 0%nat ->
    scan ob false (a ++ s) = a ++ scan ob false s.
Proof.
  induction a as [|c a IH]; intros ob s Hopen Hclose; [reflexivity|].
  simpl in Hopen, Hclose. rewrite app_cons. simpl.
  destruct (Ascii.eqb c "{"); [discriminate|].
  destruct (Ascii.eqb c "}"); [discriminate|].
  simpl. rewrite andb_false_r, app_cons. f_equal. now apply IH.
Qed.

Lemma indexOf_prefix (r name : string) :
  String.prefix name r = true -> indexOf r name = 0.
Proof.
  intros H. unfold indexOf. rewrite indexOf_from_eq, H. reflexivity.
Qed.

(** When the name occurs, the text from its first occurrence on begins
    with it. *)
Lemma indexOf_from_here (needle hay : string) (pos : Z) :
  indexOf_from needle hay pos <> -1 -> 0 <= pos ->
  String.prefix needle
    (from (Z.to_nat (indexOf_from needle hay pos - pos)) hay) = true
  /\ forall j : nat,
       (j < Z.to_nat (indexOf_from needle hay pos - pos))%nat ->
       String.prefix needle (from j hay) = false.
Proof.
  revert pos. induction hay as [|c hay IH]; intros pos Hfound Hpos;
    rewrite indexOf_from_eq in *.
  - destruct (String.prefix needle EmptyString) eqn:E; [|congruence].
    rewrite Z.sub_diag. simpl. split; [exact E | intros j Hj; lia].
  - destruct (String.prefix needle (String c hay)) eqn:E.
    + rewrite Z.sub_diag. simpl Z.to_nat. rewrite from_0.
      split; [exact E | intros j Hj; lia].
    + destruct (IH (pos + 1) Hfound ltac:(lia)) as [Hhere Hbefore].
      destruct (indexOf_from_range needle hay (pos + 1)) as [H|H];
        [congruence|].
      replace (Z.to_nat (indexOf_from needle hay (pos + 1) - pos))
        with (S (Z.to_nat (indexOf_from needle hay (pos + 1) - (pos + 1))))
        by lia.
      rewrite from_S. split; [exact Hhere|].
      intros [|j] Hj; [now rewrite from_0|].
      rewrite from_S. apply Hbefore. lia.
Qed.

Lemma indexOf_here (content name : string) :
  0 <= indexOf content name ->
  String.prefix name (from (Z.to_nat (indexOf content name)) content) = true
  /\ forall j : nat,
       (j < Z.to_nat (indexOf content name))%nat ->
       String.prefix name (from j content) = false.
Proof.
  intros Hpos. unfold indexOf in *.
  destruct (indexOf_from_here name content 0) as [H1 H2]; [lia | lia |].
  rewrite Z.sub_0_r in *. now split.
Qed.

(** What [getScope] returns for a name without braces that occurs: the
    name, followed by the scan of what comes after it. *)
Lemma getScope_after_name (scopeName content : string) :
  0 <= indexOf content scopeName ->
  count "{" scopeName = 0%nat -> count "}" scopeName = 0%nat ->
  exists after,
    from (Z.to_nat (indexOf content scopeName)) content = scopeName ++ after
    /\ getScope scopeName content = scopeName ++ scan 0 false after.
Proof.
  intros Hpos Hopen Hclose.
  destruct (indexOf_here _ _ Hpos) as [Hhere _].
  destruct (prefix_split _ _ Hhere) as [after Hafter].
  exists after. split; [exact Hafter|].
  rewrite getScope_found by exact Hpos. rewrite Hafter.
  now apply scan_plain_app.
Qed.

End ScanFacts.

Import ScanFacts.



(** X7.  For a scope name without braces that occurs in the text, the text
    returned by [getScope] begins with the scope name and goes on with text
    that follows the name's first occurrence. *)
Theorem getScope_begins_with_name (scopeName content : string) :
  0 <= indexOf content scopeName ->
  count "{" scopeName = 0%nat -> count "}" scopeName = 0%nat ->
  exists body rest : string,
    getScope scopeName content = scopeName ++ body
    /\ from (Z.to_nat (indexOf content scopeName)) content
       = scopeName ++ body ++ rest.
Proof.
  intros Hpos Hopen Hclose.
  destruct (getScope_after_name _ _ Hpos Hopen Hclose)
    as (after & Hafter & Hres).
  destruct (scan_prefix after 0 false) as [rest Hrest].
  exists (scan 0 false after), rest. split; [exact Hres|].
  now rewrite Hafter, <- Hrest.
Qed.

Lemma getScope_begins_with_name_witness :
  exists body rest : string,
    getScope "dependencies" "android { } dependencies { compile 'x' } ext"
    = "dependencies" ++ body
    /\ "dependencies { compile 'x' } ext" = "dependencies" ++ body ++ rest.
Proof.
  apply (getScope_begins_with_name "dependencies"
           "android { } dependencies { compile 'x' } ext").
  - vm_compute. discriminate.
  - reflexivity.
  - reflexivity.
Defined.

(** X8.  Extracting a scope from an extracted scope gives it back: for a
    scope name without braces that occurs in the text,
    [getScope name (getScope name content) = getScope name content]. *)
Theorem getScope_idempotent (scopeName content : string) :
  0 <= indexOf content scopeName ->
  count "{" scopeName = 0%nat -> count "}" scopeName = 0%nat ->
  getScope scopeName (getScope scopeName content)
  = getScope scopeName content.
Proof.
  intros Hpos Hopen Hclose.
  destruct (getScope_after_name _ _ Hpos Hopen Hclose)
    as (after & Hafter & Hres).
  assert (Hzero : indexOf (getScope scopeName content) scopeName = 0).
  { apply indexOf_prefix. rewrite Hres. apply prefix_app. }
  rewrite (getScope_found scopeName (getScope scopeName content))
    by (rewrite Hzero; lia).
  rewrite Hzero. simpl Z.to_nat. rewrite from_0.
  rewrite Hres at 1. rewrite scan_plain_app by assumption.
  now rewrite scan_idem.
Qed.

Lemma getScope_idempotent_witness :
  getScope "dependencies"
    (getScope "dependencies" "android { } dependencies { compile 'x' } ext")
  = getScope "dependencies" "android { } dependencies { compile 'x' } ext".
Proof.
  apply (getScope_idempotent "dependencies"
           "android { } dependencies { compile 'x' } ext").
  - vm_compute. discriminate.
  - reflexivity.
  - reflexivity.
Defined.

(** ** Option validation *)

Import Build.

(** X9.  [validateOptions] returns normally exactly for an options object
    whose [tempPluginDirPath] and [platformsAndroidDirPath] are both set to
    non-empty strings; whatever it accepts,
    [validatePlatformsAndroidDirPathOption] accepts as well; and a missing
    temporary directory is reported before a missing platforms directory. *)
Theorem validateOptions_accepts_iff (options : option IBuildOptions)
    (infos : list string) :
  (fst (validateOptions options infos) = Returned tt <->
   exists o : IBuildOptions,
     options = Some o
     /\ isFalsy (tempPluginDirPath o) = false
     /\ isFalsy (platformsAndroidDirPath o) = false)
  /\ (fst (validateOptions options infos) = Returned tt ->
      validatePlatformsAndroidDirPathOption options = Returned tt)
  /\ (forall o : IBuildOptions,
        options = Some o -> isFalsy (tempPluginDirPath o) = true ->
        fst (validateOptions options infos) = Threw noTempDirMessage).
Proof.
  destruct options as [o|]; simpl.
  - destruct (isFalsy (tempPluginDirPath o)) eqn:Htemp;
      destruct (isFalsy (platformsAndroidDirPath o)) eqn:Hdir; simpl;
      (split; [split|split]); try discriminate; try reflexivity.
    all: try (intros (o' & [= <-] & H1 & H2); congruence).
    all: try (intros _; exists o; auto).
    all: try (intros o' [= <-] H; congruence).
    all: try (intros; reflexivity).
  - split; [split|split]; try discriminate.
    intros (o & H & _). discriminate.
Qed.

(** X10.  [validateOptions] keeps the lines already logged and adds at most
    two: one for a missing plugin name and one for a missing output
    directory, in that order, also when it goes on to throw for a missing
    directory path; it logs nothing when there is no options object. *)
Theorem validateOptions_infos (options : option IBuildOptions)
    (infos : list string) :
  exists added : list string,
    snd (validateOptions options infos) = (infos ++ added)%list
    /\ (length added <= 2)%nat
    /\ (options = None -> added = [])
    /\ (forall o : IBuildOptions,
          options = Some o ->
          added = ((if isFalsy (pluginName o) then [noPluginNameInfo] else [])
                   ++ (if isFalsy (aarOutputDir o)
                       then [noAarOutputDirInfo] else []))%list).
Proof.
  destruct options as [o|]; simpl.
  - exists ((if isFalsy (pluginName o) then [noPluginNameInfo] else [])
            ++ (if isFalsy (aarOutputDir o) then [noAarOutputDirInfo] else []))%list.
    split; [|split; [|split]].
    + destruct (isFalsy (tempPluginDirPath o)); simpl;
        destruct (isFalsy (pluginName o)), (isFalsy (aarOutputDir o)); simpl;
        rewrite <- ?List.app_assoc, ?List.app_nil_r; reflexivity.
    + destruct (isFalsy (pluginName o)), (isFalsy (aarOutputDir o)); simpl; lia.
    + discriminate.
    + intros o' [= <-]. reflexivity.
  - exists []. rewrite List.app_nil_r. repeat split; try reflexivity.
    + simpl; lia.
    + intros o H. discriminate.
Qed.

(** ** The include.gradle migration *)

Module MigrateFacts.
Import Text Scope Span TextFacts ScopeFacts SpanFacts ScanFacts Build.








Section Run.
Context {FS : Type}.
Variable fsExists : FS -> string -> bool.
Variable readFile : FS -> string -> option string.
Variable writeFile : FS -> string -> string -> FS * bool.
Variable join : string -> string -> string.
Variable INCLUDE_GRADLE_NAME : string.

(** The call on valid options, a file that is there and can be read, and a
    write that succeeds. *)
Lemma migrateIncludeGradle_run (o : IBuildOptions) (dir content : string)
      (fs fs' : FS) :
  platformsAndroidDirPath o = Some dir -> dir <> EmptyString ->
  fsExists fs (join dir INCLUDE_GRADLE_NAME) = true ->
  readFile fs (join dir INCLUDE_GRADLE_NAME) = Some content ->
  writeFile fs (join dir INCLUDE_GRADLE_NAME)
    (replace content (getScope "productFlavors" content) EmptyString)
  = (fs', true) ->
  migrateIncludeGradle fsExists readFile writeFile join INCLUDE_GRADLE_NAME
    (Some o) fs
  = (Returned true, fs').
Proof.
  intros Hdir Hne Hexists Hread Hwrite.
  unfold migrateIncludeGradle, validatePlatformsAndroidDirPathOption, isFalsy.
  rewrite Hdir. destruct (String.eqb_spec dir EmptyString); [contradiction|].
  simpl. rewrite Hexists, Hread, Hwrite. reflexivity.
Qed.

End Run.

End MigrateFacts.

Import MigrateFacts.





(** X13.  When neither "productFlavors" nor the text "undefined" occurs in
    include.gradle, the content is written back as it was read. *)
Theorem migrateIncludeGradle_nothing_to_remove {FS : Type}
    (fsExists : FS -> string -> bool)
    (readFile : FS -> string -> option string)
    (writeFile : FS -> string -> string -> FS * bool)
    (join : string -> string -> string) (INCLUDE_GRADLE_NAME : string)
    (o : IBuildOptions) (dir content : string) (fs fs' : FS) :
  platformsAndroidDirPath o = Some dir -> dir <> EmptyString ->
  fsExists fs (join dir INCLUDE_GRADLE_NAME) = true ->
  readFile fs (join dir INCLUDE_GRADLE_NAME) = Some content ->
  ~ occurs "productFlavors" content ->
  ~ occurs "undefined" content ->
  writeFile fs (join dir INCLUDE_GRADLE_NAME) content = (fs', true) ->
  migrateIncludeGradle fsExists readFile writeFile join INCLUDE_GRADLE_NAME
    (Some o) fs
  = (Returned true, fs').
Proof.
  intros Hdir Hne Hexists Hread Hname Hundefined Hwrite.
  apply (migrateIncludeGradle_run _ _ _ _ _ o dir content); try assumption.
  assert (Hidx : indexOf content "productFlavors" = -1).
  { destruct (Z.eq_dec (indexOf content "productFlavors") (-1)) as [H|H];
      [exact H|]. now apply TextFacts.indexOf_occurs in H. }
  rewrite (getScope_not_found _ _ Hidx). unfold replace.
  destruct (Z.eqb_spec
              (indexOf content ("undefined" ++ scan 0 false content)) (-1))
    as [_|Hfound]; [exact Hwrite|].
  exfalso. apply Hundefined.
  apply TextFacts.indexOf_occurs in Hfound as (before & after & ->).
  exists before, (scan 0 false content ++ after).
  now rewrite !TextFacts.app_assoc.
Qed.

Lemma migrateIncludeGradle_nothing_to_remove_witness :
  migrateIncludeGradle mapExists mapRead mapWrite slashJoin "include.gradle"
    (Some (mkOptions None None None (Some "android")))
    {[ "android/include.gradle" := "dependencies { compile 'x' }" ]}
  = (Returned true,
     {[ "android/include.gradle" := "dependencies { compile 'x' }" ]}).
Proof.
  apply (migrateIncludeGradle_nothing_to_remove mapExists mapRead mapWrite
           slashJoin "include.gradle"
           (mkOptions None None None (Some "android")) "android"
           "dependencies { compile 'x' }").
  - reflexivity.
  - discriminate.
  - reflexivity.
  - reflexivity.
  - rewrite <- TextFacts.indexOf_occurs. vm_compute. tauto.
  - rewrite <- TextFacts.indexOf_occurs. vm_compute. tauto.
  - vm_compute. reflexivity.
Defined.

(** ** createManifestContent after earlier calls *)

Module HistoryFacts.
Import Js Store History.

Lemma templateKept_initial : templateKept initial.
Proof.
  split; [reflexivity|]. eexists. split; [reflexivity|].
  split; [reflexivity|]. intros key H1 H2.
  now rewrite lookup_singleton_ne.
Qed.

Lemma container_with_package (attrs : gmap string Ref) (p : string) :
  attrs !! "xmlns:android"
  = Some (RString "http://schemas.android.com/apk/res/android") ->
  (forall key : string,
     key <> "xmlns:android" -> key <> "package" -> attrs !! key = None) ->
  <["package" := RString p]> attrs
  = {[ "xmlns:android" :=
         RString "http://schemas.android.com/apk/res/android";
       "package" := RString p ]}.
Proof.
  intros Hschema Hother. apply map_eq. intros key.
  destruct (decide (key = "package")) as [->|Hp].
  - rewrite lookup_insert_eq, lookup_insert_ne by discriminate.
    now rewrite lookup_singleton_eq.
  - rewrite lookup_insert_ne by congruence.
    destruct (decide (key = "xmlns:android")) as [->|Hx].
    + now rewrite Hschema, lookup_insert_eq.
    + rewrite lookup_insert_ne by congruence.
      rewrite lookup_singleton_ne by congruence. now apply Hother.
Qed.

(** One call in a store whose template is kept. *)
Lemma createManifestContent_step {Err : Type}
      (buildObject : JsValue -> string) (p : string) (h : Heap) :
  templateKept h ->
  fst (createManifestContent (Err:=Err) buildObject p h)
  = Resolved
      (buildObject
         (JsObject Plain
            {[ "manifest" :=
                 JsObject Plain
                   {[ "$" := JsObject Plain
                               {[ "xmlns:android" := JsString Samples.schema;
                                  "package" := JsString p ]} ]} ]}))
  /\ templateKept (snd (createManifestContent (Err:=Err) buildObject p h)).
Proof.
  intros (Hroot & attrs & Hattrs & Hschema & Hother).
  set (l := fresh (dom h)).
  assert (Hl : h !! l = None) by (apply not_elem_of_dom, is_fresh).
  assert (Hl0 : l <> 0%nat)
    by (intros E; rewrite E in Hl; unfold loc in *; congruence).
  assert (Hl1 : l <> 1%nat)
    by (intros E; rewrite E in Hl; unfold loc in *; congruence).
  set (h1 := <[l := {[ "manifest" := RObject 0%nat ]}]> h).
  set (packed := {[ "xmlns:android" :=
                      RString "http://schemas.android.com/apk/res/android";
                    "package" := RString p ]} : gmap string Ref).
  set (h2 := <[1%nat := packed]> h1).
  assert (H1l : h1 !! l = Some {[ "manifest" := RObject 0%nat ]})
    by apply lookup_insert_eq.
  assert (H10 : h1 !! 0%nat = Some {[ "$" := RObject 1%nat ]})
    by (unfold h1; now rewrite lookup_insert_ne).
  assert (H11 : h1 !! 1%nat = Some attrs)
    by (unfold h1; now rewrite lookup_insert_ne).
  assert (H2l : h2 !! l = Some {[ "manifest" := RObject 0%nat ]})
    by (unfold h2; now rewrite lookup_insert_ne).
  assert (H20 : h2 !! 0%nat = Some {[ "$" := RObject 1%nat ]})
    by (unfold h2; now rewrite lookup_insert_ne).
  assert (H21 : h2 !! 1%nat = Some packed) by apply lookup_insert_eq.
  assert (Hrun : createManifestContent (Err:=Err) buildObject p h
                 = (Resolved (buildObject (snapshot h2 (RObject l))), h2)).
  { unfold createManifestContent, alloc, MANIFEST_ROOT. fold l. fold h1.
    unfold get, set. unfold loc in *.
    rewrite H1l. simpl default. rewrite lookup_singleton_eq. simpl default.
    cbv beta iota.
    rewrite H10. simpl default. rewrite lookup_singleton_eq. simpl default.
    cbv beta iota. rewrite H11. simpl default.
    rewrite (container_with_package attrs p Hschema Hother). reflexivity. }
  rewrite Hrun. simpl fst. simpl snd. split.
  - do 2 f_equal. unfold snapshot.
    assert (Hsize : exists k, size h2 = S (S k)).
    { unfold h2. rewrite map_size_insert_Some by (exists attrs; exact H11).
      unfold h1. rewrite map_size_insert_None by exact Hl.
      destruct (size h) as [|k] eqn:Hk; [|now exists k].
      apply map_size_empty_inv in Hk. subst h.
      now rewrite lookup_empty in Hroot. }
    destruct Hsize as [k ->].
    cbn [reify]. unfold loc in *.
    rewrite H2l. simpl default. rewrite map_fmap_singleton.
    cbn [reify]. rewrite H20. simpl default.
    rewrite map_fmap_singleton. cbn [reify]. rewrite H21. simpl default.
    unfold packed. rewrite fmap_insert, map_fmap_singleton.
    destruct k; reflexivity.
  - split; [exact H20|]. exists packed. split; [exact H21|]. split.
    + unfold packed. now rewrite lookup_insert_eq.
    + intros key Hx Hp. unfold packed.
      rewrite lookup_insert_ne by congruence.
      now rewrite lookup_singleton_ne by congruence.
Qed.

Lemma templateKept_after {Err : Type} (buildObject : JsValue -> string)
      (earlier : list string) :
  forall h : Heap,
    templateKept h -> templateKept (after (Err:=Err) buildObject earlier h).
Proof.
  induction earlier as [|q earlier IH]; intros h Hkept; [exact Hkept|].
  simpl. apply IH.
  now apply (createManifestContent_step (Err:=Err) buildObject q h).
Qed.

End HistoryFacts.

Import History HistoryFacts.

(** X14.  Whatever calls of [createManifestContent] came before, a call
    returns the text built from a manifest whose attributes are the schema
    declaration and the package of this call: the package an earlier call
    left in the template never shows in a later result, and the call never
    throws. *)
Theorem createManifestContent_after_earlier_calls {Err : Type}
    (buildObject : JsValue -> string) (earlier : list string)
    (packageName : string) :
  fst (Store.createManifestContent (Err:=Err) buildObject packageName
         (after (Err:=Err) buildObject earlier Store.initial))
  = Resolved
      (buildObject
         (JsObject Plain
            {[ "manifest" :=
                 JsObject Plain
                   {[ "$" := JsObject Plain
                               {[ "xmlns:android" := JsString Samples.schema;
                                  "package" := JsString packageName ]} ]} ]})).
Proof.
  apply createManifestContent_step, templateKept_after, templateKept_initial.
Qed.
(** ** The logger *)

Module LoggerFacts.
Import Text Js Span TextFacts ScanFacts MigrateFacts Build Logger.

Lemma length_stars (n : nat) : String.length (stars n) = n.
Proof. induction n as [|n IH]; simpl; [reflexivity | now rewrite IH]. Qed.

Lemma prefix_length (p t : string) :
  String.prefix p t = true -> (String.length p <= String.length t)%nat.
Proof.
  intros H. destruct (prefix_split _ _ H) as [rest ->].
  rewrite length_app. lia.
Qed.

Lemma from_app_length (p rest : string) :
  from (String.length p) (p ++ rest) = rest.
Proof.
  induction p as [|c p IH]; [rewrite app_empty_l; apply from_0|].
  rewrite app_cons. simpl String.length. now rewrite from_S.
Qed.

Lemma from_add (s : string) :
  forall k n : nat, from (k + n) s = from n (from k s).
Proof.
  induction s as [|c s IH]; intros k n.
  - destruct k, n; reflexivity.
  - destruct k as [|k]; [now rewrite from_0|].
    simpl Nat.add. now rewrite !from_S.
Qed.

(** The text around the first occurrence of a pattern. *)
Lemma first_occurrence (s p : string) :
  0 <= indexOf s p ->
  s = String.substring 0 (Z.to_nat (indexOf s p)) s
      ++ p ++ from (Z.to_nat (indexOf s p) + String.length p) s
  /\ (Z.to_nat (indexOf s p) + String.length p <= String.length s)%nat.
Proof.
  intros Hpos. destruct (indexOf_here _ _ Hpos) as [Hhere _].
  destruct (indexOf_range s p) as [H|H]; [lia|]. unfold len in H.
  pose proof (prefix_length _ _ Hhere) as Hlen.
  rewrite length_from in Hlen by lia.
  destruct (prefix_split _ _ Hhere) as [rest Hrest].
  split; [|lia].
  rewrite from_add, Hrest, from_app_length, <- Hrest.
  apply split_at. lia.
Qed.

Lemma replace_length (s p r : string) :
  String.length r = String.length p ->
  String.length (replace s p r) = String.length s.
Proof.
  intros Hr. unfold replace.
  destruct (Z.eqb_spec (indexOf s p) (-1)) as [|Hfound]; [reflexivity|].
  destruct (indexOf_range s p) as [H|H]; [contradiction|].
  destruct (first_occurrence s p) as [_ Hlen]; [lia|].
  unfold len in H.
  rewrite !length_app, length_substring_0, length_from, Hr by lia. lia.
Qed.

Lemma dropPrefix_app (p : string) :
  forall s r : string, dropPrefix p s = Some r -> s = p ++ r.
Proof.
  induction p as [|a p IH]; intros s r H.
  - destruct s; injection H as <-; reflexivity.
  - destruct s as [|b s]; [discriminate|]. simpl in H.
    destruct (Ascii.eqb_spec a b) as [->|]; [|discriminate].
    rewrite app_cons. f_equal. now apply IH.
Qed.

Lemma dropPrefix_same (p r : string) : dropPrefix p (p ++ r) = Some r.
Proof.
  induction p as [|a p IH]; [now destruct r|].
  rewrite app_cons. simpl. now rewrite Ascii.eqb_refl.
Qed.

(** A match of [passwordRegex] needs the letters assword. *)
Lemma matchHere_occurs (s : string) (m : PasswordMatch) :
  matchHere s = Some m -> occurs "assword" s.
Proof.
  unfold matchHere. destruct s as [|c s]; [discriminate|].
  destruct (isP c);
    [destruct (dropPrefix "assword=" s) as [value|] eqn:Hdrop|].
  - intros _. apply dropPrefix_app in Hdrop. subst s.
    exists (String c EmptyString), ("=" ++ value). reflexivity.
  - destruct s as [|c' s]; [discriminate|].
    destruct (Ascii.eqb c quote && isP c'); [|discriminate].
    destruct (dropPrefix jsonTail s) as [value|] eqn:Hjson; [|discriminate].
    intros _. apply dropPrefix_app in Hjson. subst s.
    exists (String c (String c' EmptyString)),
           (String quote (String ":" (String quote value))). reflexivity.
  - destruct s as [|c' s]; [discriminate|].
    destruct (Ascii.eqb c quote && isP c'); [|discriminate].
    destruct (dropPrefix jsonTail s) as [value|] eqn:Hjson; [|discriminate].
    intros _. apply dropPrefix_app in Hjson. subst s.
    exists (String c (String c' EmptyString)),
           (String quote (String ":" (String quote value))). reflexivity.
Qed.

Lemma passwordRegex_exec_occurs (s : string) (m : PasswordMatch) :
  passwordRegex_exec s = Some m -> occurs "assword" s.
Proof.
  induction s as [|c s IH]; simpl.
  - destruct (matchHere EmptyString) eqn:E; [|discriminate].
    intros _. now apply matchHere_occurs in E.
  - destruct (matchHere (String c s)) eqn:E.
    + intros _. now apply matchHere_occurs in E.
    + intros H. destruct (IH H) as (before & after & ->).
      now exists (String c before), after.
Qed.

Lemma passwordRegex_exec_none (s : string) :
  ~ occurs "assword" s -> passwordRegex_exec s = None.
Proof.
  intros H. destruct (passwordRegex_exec s) eqn:E; [|reflexivity].
  now apply passwordRegex_exec_occurs in E.
Qed.

(** Every argument that is encoded keeps its size. *)
Lemma encodeArgument_sameSize (encodeBody encodeBody' : bool)
      (argument encoded : JsValue) :
  encodeArgument encodeBody argument = (Done encoded, encodeBody') ->
  sameSize argument encoded.
Proof.
  destruct argument as [| |s|kind props]; simpl;
    try (intros [= <- _]; reflexivity).
  destruct (passwordRegex_exec s) as [m|].
  - destruct (matchedPassword m) as [p|]; simpl; [|discriminate].
    intros [= <- _]. eexists. split; [reflexivity|].
    apply replace_length, length_stars.
  - destruct (if encodeBody then requestBodyRegex_exec s else None) as [body|].
    + simpl. intros [= <- _]. eexists. split; [reflexivity|].
      apply replace_length, length_stars.
    + intros [= <- _]. now exists s.
Qed.

End LoggerFacts.

Import Logger LoggerFacts.

(** X15.  [getHiddenPassword] with a password text never changes the length
    of the message: a message in which the password does not occur is
    returned as it is, and otherwise the first occurrence of the password
    (no occurrence starts earlier in the message) is replaced by as many
    stars as it has characters, the text before and after it being kept. *)
Theorem getHiddenPassword_masks (password originalString : string) :
  exists hidden : string,
    getHiddenPassword (Some password) originalString = Done hidden
    /\ String.length hidden = String.length originalString
    /\ (~ occurs password originalString -> hidden = originalString)
    /\ (occurs password originalString ->
        exists before after : string,
          originalString = before ++ password ++ after
          /\ (forall before' after' : string,
                originalString = before' ++ password ++ after' ->
                (String.length before <= String.length before')%nat)
          /\ hidden = before ++ stars (String.length password) ++ after).
Proof.
  eexists. split; [reflexivity|]. split; [|split].
  - apply replace_length, length_stars.
  - intros Hno. unfold replace.
    destruct (Z.eqb_spec (indexOf originalString password) (-1)) as [|Hfound];
      [reflexivity|].
    now apply indexOf_occurs in Hfound.
  - intros Hoccurs. apply indexOf_occurs in Hoccurs.
    destruct (indexOf_range originalString password) as [H|H];
      [contradiction|].
    destruct (first_occurrence originalString password) as [Hsplit Hlen];
      [lia|].
    destruct (indexOf_here originalString password) as [_ Hbefore]; [lia|].
    eexists _, _. split; [exact Hsplit|]. split.
    + intros before' after' Heq.
      rewrite length_substring_0 by lia.
      destruct (Nat.le_gt_cases
                  (Z.to_nat (indexOf originalString password))
                  (String.length before')) as [Hle|Hlt]; [exact Hle|].
      specialize (Hbefore _ Hlt).
      rewrite Heq in Hbefore.
      rewrite from_app_length, prefix_app in Hbefore. discriminate.
    + unfold replace.
      destruct (Z.eqb_spec (indexOf originalString password) (-1)); [lia|].
      reflexivity.
Qed.

(** X16.  When [getPasswordEncodedArguments] returns, it returns as many
    arguments as it was given; every text among them has the length of the
    text it stands for, and every argument that is not a text is returned as
    it is. *)
Theorem getPasswordEncodedArguments_sameSize (args : list JsValue) :
  forall (encodeBody encodeBody' : bool) (encoded : list JsValue),
    getPasswordEncodedArguments encodeBody args = (Done encoded, encodeBody') ->
    Forall2 sameSize args encoded.
Proof.
  induction args as [|argument args IH]; intros encodeBody encodeBody' encoded.
  - intros [= <- _]. constructor.
  - simpl.
    destruct (encodeArgument encodeBody argument) as [[first|] encodeBody1]
      eqn:Hfirst; [|discriminate].
    destruct (getPasswordEncodedArguments encodeBody1 args)
      as [[rest|] encodeBody2] eqn:Hrest; [|discriminate].
    intros [= <- _]. constructor.
    + now apply (encodeArgument_sameSize _ _ _ _ Hfirst).
    + now apply (IH _ _ _ Hrest).
Qed.

Lemma getPasswordEncodedArguments_sameSize_witness :
  Forall2 sameSize
    [JsString "user=a&password=secret&x=1"; JsNull]
    [JsString "user=a&password=******&x=1"; JsNull].
Proof.
  apply (getPasswordEncodedArguments_sameSize
           [JsString "user=a&password=secret&x=1"; JsNull] false false).
  vm_compute. reflexivity.
Defined.

(** X17.  Texts that contain neither the letters assword nor the word path,
    and arguments that are not texts, are returned as they are given, and
    leave the field [encodeBody] at [false]. *)
Theorem getPasswordEncodedArguments_plain (args : list JsValue) :
  Forall (fun argument =>
            match argument with
            | JsString s => ~ occurs "assword" s /\ ~ occurs "path" s
            | _ => True
            end) args ->
  getPasswordEncodedArguments false args = (Done args, false).
Proof.
  induction 1 as [|argument args Hplain _ IH]; [reflexivity|].
  simpl.
  assert (Hfirst : encodeArgument false argument = (Done argument, false)).
  { destruct argument as [| |s|kind props]; try reflexivity.
    destruct Hplain as [Hpassword Hpath]. simpl.
    rewrite (passwordRegex_exec_none _ Hpassword).
    assert (Hidx : indexOf s "path" = -1).
    { destruct (Z.eq_dec (indexOf s "path") (-1)) as [E|E]; [exact E|].
      now apply indexOf_occurs in E. }
    now rewrite Hidx. }
  now rewrite Hfirst, IH.
Qed.

Lemma getPasswordEncodedArguments_plain_witness :
  getPasswordEncodedArguments false
    [JsString "Building plugin"; JsUndefined; JsString "done"]
  = (Done [JsString "Building plugin"; JsUndefined; JsString "done"], false).
Proof.
  apply (getPasswordEncodedArguments_plain
           [JsString "Building plugin"; JsUndefined; JsString "done"]).
  repeat constructor; rewrite <- indexOf_occurs; vm_compute; tauto.
Defined.

(** X18.  A text that begins with [Password=] or [password=] and goes on
    with a separator, or ends there, makes the encoding throw a [TypeError]:
    the first group is the empty text, the third is [undefined], and
    [getHiddenPassword] reads the length of [undefined]. *)
Theorem encodeArgument_empty_password (encodeBody : bool) (c : ascii)
    (tail : string) :
  isP c = true ->
  lazyValue true separator tail = Some EmptyString ->
  encodeArgument encodeBody (JsString (String c ("assword=" ++ tail)))
  = (TypeErrorThrown, encodeBody)
  /\ fst (getPasswordEncodedArguments encodeBody
            [JsString (String c ("assword=" ++ tail))])
     = TypeErrorThrown.
Proof.
  intros HP Hvalue.
  assert (Hexec : passwordRegex_exec (String c ("assword=" ++ tail))
                  = Some (FormField EmptyString)).
  { unfold passwordRegex_exec, matchHere.
    rewrite HP, dropPrefix_same, Hvalue. reflexivity. }
  assert (Hthrow : encodeArgument encodeBody
                     (JsString (String c ("assword=" ++ tail)))
                   = (TypeErrorThrown, encodeBody)).
  { unfold encodeArgument. rewrite Hexec. reflexivity. }
  split; [exact Hthrow|].
  unfold getPasswordEncodedArguments. rewrite Hthrow. reflexivity.
Qed.

Lemma encodeArgument_empty_password_witness :
  encodeArgument false (JsString "password=&user=a") = (TypeErrorThrown, false)
  /\ fst (getPasswordEncodedArguments false [JsString "password=&user=a"])
     = TypeErrorThrown.
Proof.
  apply (encodeArgument_empty_password false "p" "&user=a"); reflexivity.
Defined.

(** ** The text appended to build.gradle *)

Module GradleFacts.
Import Text Scope Span TextFacts ScopeFacts SpanFacts Gradle.



End GradleFacts.

Import Gradle GradleFacts.


